(** * dbmate (Shuttl-Tech fork): the connection target resolver of main.go

    A shallow embedding of [getDatabaseURL], [constructDatabaseUrl],
    [readVarVal] and [resolveHostPort], with the process environment, the
    command line flags and the DNS resolver made explicit, followed by the
    properties of the connection target resolver. *)

From Stdlib Require Import Ascii DecimalString DecimalZ.
From stdpp Require Import gmap strings list.

Local Open Scope Z_scope.

(** ** Strings: the functions of Go's [strings] package that main.go calls *)

Fixpoint string_drop (n : nat) (s : string) : string :=
  match n, s with
  | O, _ => s
  | S _, EmptyString => EmptyString
  | S n', String _ s' => string_drop n' s'
  end.

(** [strings.HasPrefix(s, prefix)]: [s] begins with [prefix]. *)
Fixpoint strings_HasPrefix (s prefix : string) : bool :=
  match prefix, s with
  | EmptyString, _ => true
  | String _ _, EmptyString => false
  | String p prefix', String c s' =>
      if Ascii.eqb c p then strings_HasPrefix s' prefix' else false
  end.

(** [strings.HasSuffix(s, suffix)]:
    [len(s) >= len(suffix) && s[len(s)-len(suffix):] == suffix]. *)
Definition strings_HasSuffix (s suffix : string) : bool :=
  (String.length suffix <=? String.length s)%nat
  && String.eqb (string_drop (String.length s - String.length suffix) s) suffix.

Fixpoint index_from (i : Z) (s substr : string) : Z :=
  if strings_HasPrefix s substr then i
  else match s with
       | EmptyString => -1
       | String _ s' => index_from (i + 1) s' substr
       end.

(** [strings.Index(s, substr)]: the index of the first instance of [substr]
    in [s], or -1. *)
Definition strings_Index (s substr : string) : Z := index_from 0 s substr.

(** [strings.Contains(s, substr)]: [Index(s, substr) >= 0]. *)
Definition strings_Contains (s substr : string) : bool :=
  0 <=? strings_Index s substr.

(** The scan of [strings.Split] for a separator that is not empty: [cur] is
    the piece read so far, [skip] the bytes of a matched separator still to
    be passed over. *)
Fixpoint split_go (sep s : string) (skip : nat) (cur : string) : list string :=
  match s with
  | EmptyString => [cur]
  | String c s' =>
      match skip with
      | S k => split_go sep s' k cur
      | O =>
          if strings_HasPrefix s sep
          then cur :: split_go sep s' (String.length sep - 1) EmptyString
          else split_go sep s' O (cur +:+ String c EmptyString)
      end
  end.

(** [strings.Split(s, sep)] for [sep] not empty (main.go splits on ":"). *)
Definition strings_Split (s sep : string) : list string :=
  split_go sep s O EmptyString.

Fixpoint trim_left (c : ascii) (s : string) : string :=
  match s with
  | String a s' => if Ascii.eqb a c then trim_left c s' else s
  | EmptyString => EmptyString
  end.

(** [strings.Trim(s, cutset)] for a cutset of one byte. *)
Definition strings_Trim1 (s : string) (c : ascii) : string :=
  String.rev (trim_left c (String.rev (trim_left c s))).

(** ** Values of the Go runtime and of the packages outside this repository *)

(** A Go [error] is modelled by its [Error()] text; [None] is [nil]. *)
Definition error : Type := option string.

(** [net.SRV]; [Port], [Priority] and [Weight] are [uint16]. *)
Record SRV := { Target : string; Port : Z; Priority : Z; Weight : Z }.

(** What main.go takes from packages whose code is not part of it:
    [net.IP] and its [String] method, [net/url]'s [URL] and [Parse]
    (a [*URL], possibly nil, and an error), [strconv.Quote] (the [%q] verb)
    and two constants of package [dbmate]. *)
Class Externals := {
  IP : Type;
  IP_String : IP -> string;
  URL : Type;
  url_Parse : string -> option URL * error;
  strconv_Quote : string -> string;
  dbmate_DefaultMigrationsDir : string;
  dbmate_DefaultSchemaFile : string
}.

(** [fmt]'s operands. *)
Inductive fmt_arg :=
| AString (s : string)
| AInt (n : Z)
| AError (e : string).

Definition itoa (n : Z) : string := NilZero.string_of_int (Z.to_int n).

Definition percent : ascii := "%"%char.

Section Runtime.
Context `{Ext : Externals}.

(** [net.IPAddr]. *)
Record IPAddr := { IPAddr_IP : IP; Zone : string }.

(** One verb applied to one operand. *)
Definition fmt_verb (v : ascii) (a : fmt_arg) : string :=
  match a with
  | AString s =>
      if Ascii.eqb v "s"%char then s
      else if Ascii.eqb v "q"%char then strconv_Quote s
      else "%!" +:+ String v "(string=" +:+ s +:+ ")"
  | AInt n =>
      if Ascii.eqb v "d"%char then itoa n
      else "%!" +:+ String v "(int=" +:+ itoa n +:+ ")"
  | AError e =>
      if Ascii.eqb v "s"%char then e
      else if Ascii.eqb v "q"%char then strconv_Quote e
      else "%!" +:+ String v "(error=" +:+ e +:+ ")"
  end.

(** [fmt.Sprintf] for formats whose verbs are [%s], [%d] and [%q], each
    taking the next operand. *)
Fixpoint fmt_Sprintf (format : string) (args : list fmt_arg) : string :=
  match format with
  | EmptyString => EmptyString
  | String c rest =>
      if Ascii.eqb c percent then
        match rest with
        | String v rest' =>
            match args with
            | a :: args' => fmt_verb v a +:+ fmt_Sprintf rest' args'
            | [] => "%!" +:+ String v "(MISSING)" +:+ fmt_Sprintf rest' []
            end
        | EmptyString => "%!(NOVERB)"
        end
      else String c (fmt_Sprintf rest args)
  end.

(** [fmt.Errorf]: an error whose text is the formatted string. *)
Definition fmt_Errorf (format : string) (args : list fmt_arg) : error :=
  Some (fmt_Sprintf format args).

(** ** The process environment *)

(** [syscall.Getenv]: the empty key is never found. *)
Definition syscall_Getenv (env : gmap string string) (key : string)
  : string * bool :=
  if String.eqb key "" then ("", false)
  else match env !! key with
       | Some v => (v, true)
       | None => ("", false)
       end.

(** [os.Getenv] as a function of the environment: the value, or the empty
    string when the variable is not present. *)
Definition Getenv (env : gmap string string) (key : string) : string :=
  fst (syscall_Getenv env key).

(** ** The command line (package [cli]) *)

Inductive cli_Flag :=
| cli_StringFlag (Name Value : string)
| cli_BoolFlag (Name : string).

(** The flags declared by [NewApp]. *)
Definition NewApp_Flags : list cli_Flag :=
  [ cli_StringFlag "env, e" "DATABASE_URL";
    cli_StringFlag "hostvar" "DATABASE_HOST";
    cli_StringFlag "uservar" "DATABASE_USER";
    cli_StringFlag "passvar" "DATABASE_PASSWORD";
    cli_StringFlag "drivervar" "DATABASE_DRIVER";
    cli_StringFlag "dbnamevar" "DATABASE_NAME";
    cli_StringFlag "dbportvar" "DATABASE_PORT";
    cli_StringFlag "migrations-dir, d" dbmate_DefaultMigrationsDir;
    cli_StringFlag "schema-file, s" dbmate_DefaultSchemaFile;
    cli_BoolFlag "no-dump-schema" ].

(** The names of a flag: its [Name] split at commas, blanks trimmed. *)
Definition flag_names (f : cli_Flag) : list string :=
  let name := match f with
              | cli_StringFlag n _ => n
              | cli_BoolFlag n => n
              end in
  (fun n => strings_Trim1 n " "%char) <$> strings_Split name ",".

Definition flag_default (f : cli_Flag) : string :=
  match f with
  | cli_StringFlag _ v => v
  | cli_BoolFlag _ => "false"
  end.

(** A [cli.Context]: the global flag set, each declared name with its
    current value. *)
Record cli_Context := { globalFlags : list (string * string) }.

Fixpoint assoc (k : string) (l : list (string * string)) : option string :=
  match l with
  | [] => None
  | (k', v) :: l' => if String.eqb k k' then Some v else assoc k l'
  end.

(** The value the command line gives a flag: [given] lists the settings in
    the order they were written, and the last one made under any of the
    flag's names stands. *)
Fixpoint flag_given (names : list string) (given : list (string * string))
  : option string :=
  match given with
  | [] => None
  | (n, v) :: rest =>
      match flag_given names rest with
      | Some v' => Some v'
      | None => if existsb (String.eqb n) names then Some v else None
      end
  end.

(** Whether every setting of the command line names a declared flag;
    [app.Run] fails on any other, and no command runs. *)
Definition flags_declared (flags : list cli_Flag)
    (given : list (string * string)) : bool :=
  forallb (fun '(n, _) =>
             existsb (fun f => existsb (String.eqb n) (flag_names f)) flags)
          given.

(** The context [app.Run] builds from the declared flags and the settings
    [given] on the command line, for a command line that names declared
    flags only: each flag has the value given, else its default. *)
Definition cli_NewContext (flags : list cli_Flag)
    (given : list (string * string)) : cli_Context :=
  {| globalFlags :=
       flags ≫= (fun f =>
         let v := default (flag_default f) (flag_given (flag_names f) given) in
         (fun n => (n, v)) <$> flag_names f) |}.

(** [c.GlobalString(name)]: the value of the flag of that name, and the
    empty string when no flag of that name is declared. *)
Definition GlobalString (c : cli_Context) (name : string) : string :=
  default "" (assoc name (globalFlags c)).

(** ** The DNS resolver and the world a run takes place in *)

(** What the network answers: to an SRV query sent to [dial] within
    [timeout], and to an address query.  A deadline that passes is an
    answer with an error. *)
Record Network := {
  net_LookupSRV : string -> Z -> string -> string -> string
                  -> string * list SRV * error;
  net_LookupIPAddr : string -> Z -> string -> list IPAddr * error
}.

Record World := { environ : gmap string string; network : Network }.

(** What a run does that can be observed from outside. *)
Inductive event :=
| EvGetenv (key : string)
| EvLog (msg : string)
| EvLookupSRV (dial : string) (timeout : Z) (name : string)
| EvLookupIPAddr (dial : string) (timeout : Z) (host : string).

(** A call either returns or stops with a run-time panic. *)
Inductive result (A : Type) :=
| Done (a : A)
| Panic (msg : string).
Global Arguments Done {A} a.
Global Arguments Panic {A} msg.

(** Computations: read the world, emit events, return or panic. *)
Definition M (A : Type) : Type := World -> list event * result A.

Definition ret {A} (a : A) : M A := fun _ => ([], Done a).

Definition bind {A B} (m : M A) (f : A -> M B) : M B :=
  fun w =>
    match m w with
    | (t, Done a) => let '(t', r) := f a w in (t ++ t', r)
    | (t, Panic msg) => (t, Panic msg)
    end.

Definition panic {A} (msg : string) : M A := fun _ => ([], Panic msg).

(** The primitives main.go calls. *)

Definition os_Getenv (key : string) : M string :=
  fun w => ([EvGetenv key], Done (Getenv (environ w) key)).

(** [log.Printf]. *)
Definition log_Printf (format : string) (args : list fmt_arg) : M unit :=
  fun _ => ([EvLog (fmt_Sprintf format args)], Done tt).

(** [s[0]]: the first element, or the run-time panic of an index out of
    range. *)
Definition index0 {A} (s : list A) : M A :=
  match s with
  | x :: _ => ret x
  | [] => panic "runtime error: index out of range [0] with length 0"
  end.

(** [time.Millisecond], a [time.Duration] in nanoseconds. *)
Definition time_Millisecond : Z := 1000000.

(** [context.WithTimeout(context.Background(), d)]: all that the resolver
    uses of it is the time allowed. *)
Record context_Context := { timeout_ns : Z }.
Definition context_WithTimeout (d : Z) : context_Context :=
  {| timeout_ns := d |}.

(** A [net.Resolver] whose [Dial] ignores the address it is given and opens
    [Dial_network] to [Dial_address]. *)
Record Resolver := { Dial_network : string; Dial_address : string }.

Definition Resolver_LookupSRV (r : Resolver) (ctx : context_Context)
    (service proto name : string) : M (string * list SRV * error) :=
  fun w =>
    ([EvLookupSRV (Dial_address r) (timeout_ns ctx) name],
     Done (net_LookupSRV (network w) (Dial_address r) (timeout_ns ctx)
             service proto name)).

Definition Resolver_LookupIPAddr (r : Resolver) (ctx : context_Context)
    (host : string) : M (list IPAddr * error) :=
  fun w =>
    ([EvLookupIPAddr (Dial_address r) (timeout_ns ctx) host],
     Done (net_LookupIPAddr (network w) (Dial_address r) (timeout_ns ctx)
             host)).

End Runtime.

Declare Scope go_scope.
Delimit Scope go_scope with go.
Notation "'let*' x ':=' m 'in' k" := (bind m (fun x => k))
  (at level 10, x pattern, m at level 100, k at level 200) : go_scope.
Notation "m ;;; k" := (bind m (fun _ => k))
  (at level 100, right associativity) : go_scope.

(** ** main.go *)

Section Program.
Context `{Ext : Externals}.
Local Open Scope go_scope.

Definition readVarVal (v : string) : M string :=
  let* name := os_Getenv v in
  os_Getenv name.

Definition resolveHostPort (hostname : string) : M (string * string * error) :=
  let* dnsServer := os_Getenv "NET_BRIDGE_GW_IP" in
  let* dnsServer :=
    (if String.eqb dnsServer "" then
       let* consul := os_Getenv "CONSUL_HTTP_ADDR" in
       let addr := strings_Split consul ":" in
       index0 addr
     else ret dnsServer) in
  let dnsServer := if String.eqb dnsServer "" then "127.0.0.1" else dnsServer in
  log_Printf "resolving address %s using DNS server at %s"
    [AString hostname; AString dnsServer] ;;;
  let resolver :=
    {| Dial_network := "udp";
       Dial_address := fmt_Sprintf "%s:%d" [AString dnsServer; AInt 53] |} in
  let ctx := context_WithTimeout (500 * time_Millisecond) in
  let* (_, addrs, err) := Resolver_LookupSRV resolver ctx "" "" hostname in
  match err with
  | Some e => ret ("", "", Some e)
  | None =>
      let* addrs0 := index0 addrs in
      let host := Target addrs0 in
      let port := fmt_Sprintf "%d" [AInt (Port addrs0)] in
      let finish host :=
        (log_Printf "%s resolved to %s on port %s"
           [AString hostname; AString host; AString port] ;;;
         ret (host, port, None)) in
      if strings_Contains host ".consul" then
        let rctx := context_WithTimeout (500 * time_Millisecond) in
        let* (ipAddr, err) := Resolver_LookupIPAddr resolver rctx host in
        match err with
        | Some _ =>
            ret ("", "",
                 fmt_Errorf "failed to resolve IP address for %s" [AString host])
        | None =>
            let* ipAddr0 := index0 ipAddr in
            finish (IP_String (IPAddr_IP ipAddr0))
        end
      else finish host
  end.

Definition constructDatabaseUrl (c : cli_Context) : M (option URL * error) :=
  let portvar := GlobalString c "portvar" in
  let namevar := GlobalString c "dbnamevar" in
  let drivervar := GlobalString c "drivervar" in
  let passvar := GlobalString c "passvar" in
  let uservar := GlobalString c "uservar" in
  let hostvar := GlobalString c "hostvar" in
  let* port := readVarVal portvar in
  let port := if String.eqb port "" then "5432" else port in
  let* driver := readVarVal drivervar in
  let driver := if String.eqb driver "" then "postgres" else driver in
  let assemble hostname port :=
    (let* user := readVarVal uservar in
     let* pass := readVarVal passvar in
     let* name := readVarVal namevar in
     let dsnUrl := fmt_Sprintf "%s://%s:%s@%s:%s/%s?sslmode=disable"
                     [AString driver; AString user; AString pass;
                      AString hostname; AString port; AString name] in
     ret (url_Parse dsnUrl)) in
  let* hostname := readVarVal hostvar in
  if strings_HasSuffix hostname ".consul" then
    let* (hostname, port, err) := resolveHostPort hostname in
    match err with
    | Some e =>
        ret (None,
             fmt_Errorf "failed to resolve DNS name %q. %s"
               [AString hostname; AError e])
    | None => assemble hostname port
    end
  else assemble hostname port.

(** [getDatabaseURL] returns the current environment database url. *)
Definition getDatabaseURL (c : cli_Context) : M (option URL * error) :=
  let env := GlobalString c "env" in
  let* value := os_Getenv env in
  if String.eqb value "" then constructDatabaseUrl c
  else ret (url_Parse value).

End Program.

(** ** main.go: the caller of [getDatabaseURL] *)

(** [strconv.ParseBool]. *)
Definition strconv_ParseBool (s : string) : option bool :=
  if String.eqb s "1" || String.eqb s "t" || String.eqb s "T"
     || String.eqb s "TRUE" || String.eqb s "true" || String.eqb s "True"
  then Some true
  else if String.eqb s "0" || String.eqb s "f" || String.eqb s "F"
          || String.eqb s "FALSE" || String.eqb s "false"
          || String.eqb s "False"
  then Some false
  else None.

(** [c.GlobalBool(name)]: the flag's value parsed as a boolean; [false] when
    it does not parse and when no flag of that name is declared. *)
Definition GlobalBool (c : cli_Context) (name : string) : bool :=
  match assoc name (globalFlags c) with
  | Some v => default false (strconv_ParseBool v)
  | None => false
  end.

Section Caller.
Context `{Ext : Externals}.
Local Open Scope go_scope.

(** What [action] touches of a [dbmate.DB]: the three fields it assigns;
    [DB_rest] stands for whatever else [dbmate.New] puts in the value. *)
Variable DB_rest : Type.

Record dbmate_DB := {
  AutoDumpSchema : bool;
  MigrationsDir : string;
  SchemaFile : string;
  DB_other : DB_rest
}.

(** [dbmate.New], of package dbmate. *)
Variable dbmate_New : option URL -> dbmate_DB.

(** [action] wraps a command body with dbmate initialization logic. *)
Definition action (f : dbmate_DB -> cli_Context -> M error)
    (c : cli_Context) : M error :=
  let* (u, err) := getDatabaseURL c in
  match err with
  | Some e => ret (Some e)
  | None =>
      let db := dbmate_New u in
      let db := {| AutoDumpSchema := negb (GlobalBool c "no-dump-schema");
                   MigrationsDir := MigrationsDir db;
                   SchemaFile := SchemaFile db;
                   DB_other := DB_other db |} in
      let db := {| AutoDumpSchema := AutoDumpSchema db;
                   MigrationsDir := GlobalString c "migrations-dir";
                   SchemaFile := SchemaFile db;
                   DB_other := DB_other db |} in
      let db := {| AutoDumpSchema := AutoDumpSchema db;
                   MigrationsDir := MigrationsDir db;
                   SchemaFile := GlobalString c "schema-file";
                   DB_other := DB_other db |} in
      f db c
  end.

End Caller.

(** ** main.go as it was before service discovery (the second text of the
    file): the same [getDatabaseURL] and [readVarVal], and a
    [constructDatabaseUrl] that formats the host name as read. *)

Module Plain.
Section Program.
Context `{Ext : Externals}.
Local Open Scope go_scope.

Definition constructDatabaseUrl (c : cli_Context) : M (option URL * error) :=
  let portvar := GlobalString c "portvar" in
  let namevar := GlobalString c "dbnamevar" in
  let drivervar := GlobalString c "drivervar" in
  let passvar := GlobalString c "passvar" in
  let uservar := GlobalString c "uservar" in
  let hostvar := GlobalString c "hostvar" in
  let* port := readVarVal portvar in
  let port := if String.eqb port "" then "5432" else port in
  let* driver := readVarVal drivervar in
  let driver := if String.eqb driver "" then "postgres" else driver in
  let* user := readVarVal uservar in
  let* pass := readVarVal passvar in
  let* host := readVarVal hostvar in
  let* name := readVarVal namevar in
  let dsnUrl := fmt_Sprintf "%s://%s:%s@%s:%s/%s?sslmode=disable"
                  [AString driver; AString user; AString pass;
                   AString host; AString port; AString name] in
  ret (url_Parse dsnUrl).

Definition getDatabaseURL (c : cli_Context) : M (option URL * error) :=
  let env := GlobalString c "env" in
  let* value := os_Getenv env in
  if String.eqb value "" then constructDatabaseUrl c
  else ret (url_Parse value).

End Program.
End Plain.

(** ** The vocabulary of the specification *)

Section Specification.
Context `{Ext : Externals}.

(** [os.LookupEnv]: the value a variable holds, [None] when it is unset. *)
Definition os_LookupEnv (env : gmap string string) (key : string)
  : option string :=
  let '(v, found) := syscall_Getenv env key in
  if found then Some v else None.

(** The host segment of an address: what comes before the first colon. *)
Fixpoint before_colon (s : string) : string :=
  match s with
  | EmptyString => EmptyString
  | String c s' =>
      if Ascii.eqb c ":"%char then EmptyString else String c (before_colon s')
  end.

(** The DNS server the specification selects: the bridge/gateway address,
    else the host segment of the discovery-agent address, else loopback. *)
Definition select_dnsServer (env : gmap string string) : string :=
  if bool_decide (Getenv env "NET_BRIDGE_GW_IP" ≠ "")
  then Getenv env "NET_BRIDGE_GW_IP"
  else if bool_decide (before_colon (Getenv env "CONSUL_HTTP_ADDR") ≠ "")
       then before_colon (Getenv env "CONSUL_HTTP_ADDR")
       else "127.0.0.1".

(** Where the queries go: UDP port 53 of the selected server. *)
Definition dial_address (env : gmap string string) : string :=
  select_dnsServer env +:+ ":53".

(** The reads by which [resolveHostPort] selects the server. *)
Definition select_reads (env : gmap string string) : list event :=
  EvGetenv "NET_BRIDGE_GW_IP"
  :: (if String.eqb (Getenv env "NET_BRIDGE_GW_IP") ""
      then [EvGetenv "CONSUL_HTTP_ADDR"] else []).

(** The deadline of each query: 500 ms, in nanoseconds. *)
Definition query_deadline : Z := 500000000.

(** The connection fields of the specification and its format
    [<driver>://<user>:<password>@<host>:<port>/<databaseName>?sslmode=disable],
    an empty driver standing for postgres and an empty port for 5432. *)
Record ConnectionFields := {
  cf_driver : string;
  cf_user : string;
  cf_password : string;
  cf_host : string;
  cf_port : string;
  cf_databaseName : string
}.

Definition assembleURL (f : ConnectionFields) : string :=
  (if bool_decide (cf_driver f = "") then "postgres" else cf_driver f)
  +:+ "://" +:+ cf_user f +:+ ":" +:+ cf_password f +:+ "@" +:+ cf_host f
  +:+ ":" +:+ (if bool_decide (cf_port f = "") then "5432" else cf_port f)
  +:+ "/" +:+ cf_databaseName f +:+ "?sslmode=disable".

(** The value the indirection chain starting at [v] yields. *)
Definition indirect (env : gmap string string) (v : string) : string :=
  match os_LookupEnv env v with
  | Some name => default "" (os_LookupEnv env name)
  | None => ""
  end.

(** The field values [constructDatabaseUrl] reads through the indirection
    variables, each under the flag name the code asks [GlobalString] for. *)
Definition read_fields (c : cli_Context) (env : gmap string string)
  : ConnectionFields :=
  {| cf_driver := indirect env (GlobalString c "drivervar");
     cf_user := indirect env (GlobalString c "uservar");
     cf_password := indirect env (GlobalString c "passvar");
     cf_host := indirect env (GlobalString c "hostvar");
     cf_port := indirect env (GlobalString c "portvar");
     cf_databaseName := indirect env (GlobalString c "dbnamevar") |}.

(** The fields with host and port replaced by a resolved endpoint. *)
Definition with_endpoint (f : ConnectionFields) (host port : string)
  : ConnectionFields :=
  {| cf_driver := cf_driver f;
     cf_user := cf_user f;
     cf_password := cf_password f;
     cf_host := host;
     cf_port := port;
     cf_databaseName := cf_databaseName f |}.

(** Observations on a trace. *)
Definition is_lookup (e : event) : bool :=
  match e with
  | EvLookupSRV _ _ _ | EvLookupIPAddr _ _ _ => true
  | _ => false
  end.

Definition is_srv_lookup (e : event) : bool :=
  match e with EvLookupSRV _ _ _ => true | _ => false end.

Definition is_getenv (key : string) (e : event) : bool :=
  match e with EvGetenv k => String.eqb k key | _ => false end.

Definition is_read (e : event) : bool :=
  match e with EvGetenv _ => true | _ => false end.

(** The address a network query is sent to. *)
Definition server_of (e : event) : option string :=
  match e with
  | EvLookupSRV dial _ _ | EvLookupIPAddr dial _ _ => Some dial
  | _ => None
  end.

(** The network queries of a trace, in order. *)
Definition lookups (t : list event) : list event := List.filter is_lookup t.

(** The two reads of [readVarVal v]. *)
Definition reads (env : gmap string string) (v : string) : list event :=
  [EvGetenv v; EvGetenv (Getenv env v)].

(** The reads of [constructDatabaseUrl] before and after it looks at the
    host name. *)
Definition reads_before (c : cli_Context) (env : gmap string string)
  : list event :=
  reads env (GlobalString c "portvar")
  ++ reads env (GlobalString c "drivervar")
  ++ reads env (GlobalString c "hostvar").

Definition reads_after (c : cli_Context) (env : gmap string string)
  : list event :=
  reads env (GlobalString c "uservar")
  ++ reads env (GlobalString c "passvar")
  ++ reads env (GlobalString c "dbnamevar").

(** Two worlds a program cannot tell apart: the same network, and every
    variable reads the same. *)
Definition same_reads (w1 w2 : World) : Prop :=
  network w1 = network w2
  /\ forall key, Getenv (environ w1) key = Getenv (environ w2) key.

Definition respects {A} (m : M A) : Prop :=
  forall w1 w2, same_reads w1 w2 -> m w1 = m w2.

End Specification.

(** ** Go's resolver between the DNS server and main.go *)

Section GoResolver.
Context `{Ext : Externals}.





End GoResolver.

(** ** Further observations on runs *)

(** The time a network query is allowed. *)
Definition deadline_of (e : event) : option Z :=
  match e with
  | EvLookupSRV _ d _ | EvLookupIPAddr _ d _ => Some d
  | _ => None
  end.

(** Reading a decimal text back as a number. *)
Definition parse_decimal (s : string) : option Z :=
  Z.of_int <$> NilZero.int_of_string s.

(** ** A concrete instance of the outside packages, for running examples *)

Module Fixture.

(** An IPv4 address, printed in dotted notation as [net.IP.String] does;
    a URL kept as its text, every text parsing; [%q] for a text that needs
    no escape. *)
#[export] Instance ext : Externals := {|
  IP := Z * Z * Z * Z;
  IP_String := fun '(a, b, c, d) =>
    itoa a +:+ "." +:+ itoa b +:+ "." +:+ itoa c +:+ "." +:+ itoa d;
  URL := string;
  url_Parse := fun s => (Some s, None);
  strconv_Quote := fun s =>
    String "034"%char EmptyString +:+ s +:+ String "034"%char EmptyString;
  dbmate_DefaultMigrationsDir := "./db/migrations";
  dbmate_DefaultSchemaFile := "./db/schema.sql"
|}.

(** The context of a command line that sets no flag. *)
Definition ctx0 : cli_Context := cli_NewContext NewApp_Flags [].

(** A network in which every query fails. *)
Definition no_network : Network :=
  {| net_LookupSRV := fun _ _ _ _ _ => ("", [], Some "no such host");
     net_LookupIPAddr := fun _ _ _ => ([], Some "no such host") |}.

(** The example of the specification: the host variable leads to
    db.service.consul, whose SRV record points at a node that resolves
    to 192.0.2.5. *)
Definition consul_env : gmap string string :=
  <["DATABASE_HOST" := "HOST_VAR"]>
    (<["HOST_VAR" := "db.service.consul"]> ∅).

Definition node_record : SRV :=
  {| Target := "10-0-0-5.node.consul"; Port := 5433;
     Priority := 1; Weight := 1 |}.

Definition node_address : IPAddr :=
  {| IPAddr_IP := (192, 0, 2, 5); Zone := "" |}.

Definition consul_network : Network :=
  {| net_LookupSRV := fun _ _ _ _ name =>
       if String.eqb name "db.service.consul"
       then ("", [node_record], None)
       else ("", [], Some "no such host");
     net_LookupIPAddr := fun _ _ host =>
       if String.eqb host "10-0-0-5.node.consul"
       then ([node_address], None)
       else ([], Some "no such host") |}.

Definition consul_world : World :=
  {| environ := consul_env; network := consul_network |}.

(** The same service behind a resolver that answers as Go's does, with the
    target as a fully qualified name: it ends in a dot. *)
Definition fqdn_record : SRV :=
  {| Target := "10-0-0-5.node.consul."; Port := 5433;
     Priority := 1; Weight := 1 |}.

Definition fqdn_network : Network :=
  {| net_LookupSRV := fun _ _ _ _ name =>
       if String.eqb name "db.service.consul"
       then ("", [fqdn_record], None)
       else ("", [], Some "no such host");
     net_LookupIPAddr := fun _ _ host =>
       if String.eqb host "10-0-0-5.node.consul."
       then ([node_address], None)
       else ([], Some "no such host") |}.

Definition fqdn_world : World :=
  {| environ := consul_env; network := fqdn_network |}.

(** A service whose SRV target is an ordinary host name. *)
Definition pg1_record : SRV :=
  {| Target := "pg1.example.com"; Port := 6432; Priority := 1; Weight := 1 |}.

Definition pg2_record : SRV :=
  {| Target := "pg2.example.com"; Port := 6433; Priority := 2; Weight := 1 |}.

Definition direct_network : Network :=
  {| net_LookupSRV := fun _ _ _ _ name => ("", [pg1_record; pg2_record], None);
     net_LookupIPAddr := fun _ _ host => ([], Some "no such host") |}.

Definition direct_world : World :=
  {| environ := consul_env; network := direct_network |}.



(** A command line that sets the port flag. *)
Definition ctx_port : cli_Context :=
  cli_NewContext NewApp_Flags [("dbportvar", "APP_DB_PORT")].

(** The SRV query succeeds, the address query for its target fails. *)
Definition address_failure_network : Network :=
  {| net_LookupSRV := fun _ _ _ _ name => ("", [fqdn_record], None);
     net_LookupIPAddr := fun _ _ host =>
       ([], Some "lookup 10-0-0-5.node.consul.: i/o timeout") |}.

Definition address_failure_world : World :=
  {| environ := consul_env; network := address_failure_network |}.

(** One variable of each kind the indirection can meet. *)
Definition indirection_env : gmap string string :=
  <["A" := "B"]> (<["B" := "value"]> (<["E" := ""]> (<["D" := "MISSING"]> ∅))).

Definition indirection_world : World :=
  {| environ := indirection_env; network := no_network |}.

(** A static host, with the port variable leading to 6543. *)
Definition static_env : gmap string string :=
  <["DATABASE_HOST" := "APP_DB_HOST"]>
    (<["APP_DB_HOST" := "db.example.com"]>
       (<["DATABASE_PORT" := "APP_DB_PORT"]>
          (<["APP_DB_PORT" := "6543"]>
             (<["DATABASE_USER" := "APP_DB_USER"]>
                (<["APP_DB_USER" := "app"]>
                   (<["DATABASE_NAME" := "APP_DB_NAME"]>
                      (<["APP_DB_NAME" := "orders"]> ∅))))))).

Definition static_world : World :=
  {| environ := static_env; network := no_network |}.

(** The override variable holds a URL. *)
Definition override_world : World :=
  {| environ := <["DATABASE_URL" := "mysql://root@127.0.0.1:3306/app"]> static_env;
     network := no_network |}.

(** The override variable is set and empty. *)
Definition empty_override_world : World :=
  {| environ := <["DATABASE_URL" := ""]> static_env; network := no_network |}.

(** The service name asked of a network in which every query fails. *)
Definition unreachable_world : World :=
  {| environ := consul_env; network := no_network |}.

(** The discovery-agent address written as a URL. *)
Definition url_form_world : World :=
  {| environ := <["CONSUL_HTTP_ADDR" := "http://127.0.0.1:8500"]> consul_env;
     network := consul_network |}.

(** The consul network seen from an environment full of other variables. *)
Definition busy_world : World :=
  {| environ := static_env; network := consul_network |}.

(** The host written as a fully qualified name. *)
Definition trailing_dot_world : World :=
  {| environ := <["DATABASE_HOST" := "HOST_VAR"]>
                  (<["HOST_VAR" := "db.service.consul."]> ∅);
     network := consul_network |}.

(** Two sets of credentials that differ in where the colon belongs. *)
Definition colon_in_user_world : World :=
  {| environ := <["DATABASE_PASSWORD" := "APP_DB_PASS"]>
                  (<["APP_DB_PASS" := "secret"]>
                     (<["APP_DB_USER" := "app:x"]> static_env));
     network := no_network |}.

Definition colon_in_password_world : World :=
  {| environ := <["DATABASE_PASSWORD" := "APP_DB_PASS"]>
                  (<["APP_DB_PASS" := "x:secret"]> static_env);
     network := no_network |}.

(** A [dbmate.New] and a command body for running [action]. *)
Definition new_db (u : option URL) : dbmate_DB (option URL) :=
  {| AutoDumpSchema := false; MigrationsDir := "elsewhere";
     SchemaFile := "elsewhere.sql"; DB_other := u |}.

Definition migrate_body (db : dbmate_DB (option URL)) (c : cli_Context)
  : M error :=
  bind (log_Printf "migrating %s" [AString (MigrationsDir _ db)])
       (fun _ => ret None).

End Fixture.


(** ** Strings *)

#[local] Arguments String.append !_ _ / : simpl nomatch.

Lemma append_empty_r (s : string) : s +:+ "" = s.
Proof. induction s as [|c s IH]; simpl; [reflexivity | now rewrite IH]. Qed.

Lemma append_assoc (a b c : string) : (a +:+ b) +:+ c = a +:+ (b +:+ c).
Proof. induction a as [|x a IH]; simpl; [reflexivity | now rewrite IH]. Qed.

Lemma HasPrefix_refl (s : string) : strings_HasPrefix s s = true.
Proof.
  induction s as [|c s IH]; simpl; [reflexivity|].
  now rewrite Ascii.eqb_refl.
Qed.

Lemma index_from_eq (i : Z) (s substr : string) :
  index_from i s substr =
    if strings_HasPrefix s substr then i
    else match s with
         | EmptyString => -1
         | String _ s' => index_from (i + 1) s' substr
         end.
Proof. destruct s; reflexivity. Qed.

Lemma index_from_found (substr : string) (n : nat) :
  forall (s : string) (i : Z),
    0 <= i ->
    strings_HasPrefix (string_drop n s) substr = true ->
    0 <= index_from i s substr.
Proof.
  induction n as [|n IH]; intros s i Hi Hp; rewrite index_from_eq.
  - replace (string_drop 0 s) with s in Hp by (destruct s; reflexivity).
    rewrite Hp. exact Hi.
  - destruct (strings_HasPrefix s substr) eqn:Hs; [exact Hi|].
    destruct s as [|c s]; [cbn [string_drop] in Hp; congruence|].
    cbn [string_drop] in Hp. apply IH; [lia | exact Hp].
Qed.

(** A suffix is a substring. *)
Lemma HasSuffix_Contains (s suffix : string) :
  strings_HasSuffix s suffix = true -> strings_Contains s suffix = true.
Proof.
  unfold strings_HasSuffix, strings_Contains, strings_Index.
  intros H. apply andb_true_iff in H as [_ H].
  apply String.eqb_eq in H.
  apply Z.leb_le.
  apply index_from_found with (n := (String.length s - String.length suffix)%nat);
    [lia|].
  rewrite H. apply HasPrefix_refl.
Qed.

(** The first piece [strings.Split] cuts at ":" is the host segment. *)
Lemma split_go_colon (s : string) :
  forall cur, exists tl,
    split_go ":" s O cur = (cur +:+ before_colon s) :: tl.
Proof.
  induction s as [|c s IH]; intros cur.
  - exists []. change (before_colon "") with EmptyString.
    now rewrite append_empty_r.
  - cbn [before_colon split_go strings_HasPrefix].
    destruct (Ascii.eqb c ":") eqn:Hc.
    + destruct s; eexists; rewrite append_empty_r; reflexivity.
    + destruct (IH (cur +:+ String c "")) as [tl Htl].
      exists tl. rewrite Htl, append_assoc. reflexivity.
Qed.

Lemma Split_colon (s : string) :
  exists tl, strings_Split s ":" = before_colon s :: tl.
Proof. apply (split_go_colon s ""). Qed.

Lemma itoa_nonempty (n : Z) : itoa n <> "".
Proof.
  unfold itoa. destruct (Z.to_int n) as [d|d]; simpl; [|discriminate].
  destruct d; simpl; discriminate.
Qed.

(** ** The environment and the monad *)

Section Properties.
Context `{Ext : Externals}.
Local Open Scope go_scope.

Lemma Getenv_LookupEnv (env : gmap string string) (key : string) :
  Getenv env key = default "" (os_LookupEnv env key).
Proof.
  unfold Getenv, os_LookupEnv, syscall_Getenv.
  destruct (String.eqb key ""); [reflexivity|].
  destruct (env !! key); reflexivity.
Qed.

Lemma LookupEnv_empty_key (env : gmap string string) :
  os_LookupEnv env "" = None.
Proof. reflexivity. Qed.

Lemma Getenv_indirect (env : gmap string string) (v : string) :
  Getenv env (Getenv env v) = indirect env v.
Proof.
  unfold indirect. rewrite (Getenv_LookupEnv env v).
  destruct (os_LookupEnv env v) as [name|]; simpl.
  - apply Getenv_LookupEnv.
  - reflexivity.
Qed.

Lemma readVarVal_run (v : string) (w : World) :
  readVarVal v w = (reads (environ w) v, Done (indirect (environ w) v)).
Proof. rewrite <- Getenv_indirect. reflexivity. Qed.

Lemma Sprintf_dial (server : string) :
  fmt_Sprintf "%s:%d" [AString server; AInt 53] = server +:+ ":53".
Proof. reflexivity. Qed.

Lemma Sprintf_port (p : Z) : fmt_Sprintf "%d" [AInt p] = itoa p.
Proof. cbn. apply append_empty_r. Qed.

Lemma Sprintf_unresolved (host : string) :
  fmt_Sprintf "failed to resolve IP address for %s" [AString host]
  = "failed to resolve IP address for " +:+ host.
Proof. cbn. now rewrite append_empty_r. Qed.

(** Step 1 of the discovery path: the server [resolveHostPort] settles on is
    the one the specification selects. *)
Lemma selected_server (env : gmap string string) :
  (let d := Getenv env "NET_BRIDGE_GW_IP" in
   let d := if String.eqb d "" then before_colon (Getenv env "CONSUL_HTTP_ADDR")
            else d in
   if String.eqb d "" then "127.0.0.1" else d) = select_dnsServer env.
Proof.
  unfold select_dnsServer. cbv zeta.
  destruct (String.eqb_spec (Getenv env "NET_BRIDGE_GW_IP") "") as [E|E].
  - rewrite bool_decide_eq_false_2 by (intros H; apply H, E).
    destruct (String.eqb_spec (before_colon (Getenv env "CONSUL_HTTP_ADDR")) "")
      as [E'|E'].
    + rewrite bool_decide_eq_false_2 by (intros H; apply H, E'). reflexivity.
    + rewrite bool_decide_eq_true_2 by exact E'. reflexivity.
  - rewrite bool_decide_eq_true_2 by exact E.
    destruct (String.eqb_spec (Getenv env "NET_BRIDGE_GW_IP") ""); [contradiction|].
    reflexivity.
Qed.

Lemma resolveHostPort_run (hostname : string) (w : World) :
  let env := environ w in
  let dial := dial_address env in
  let pre :=
    select_reads env
    ++ [EvLog (fmt_Sprintf "resolving address %s using DNS server at %s"
                 [AString hostname; AString (select_dnsServer env)]);
        EvLookupSRV dial query_deadline hostname] in
  let resolved host port :=
    EvLog (fmt_Sprintf "%s resolved to %s on port %s"
             [AString hostname; AString host; AString port]) in
  resolveHostPort hostname w =
    match net_LookupSRV (network w) dial query_deadline "" "" hostname with
    | (_, _, Some e) => (pre, Done ("", "", Some e))
    | (_, [], None) =>
        (pre, Panic "runtime error: index out of range [0] with length 0")
    | (_, a :: _, None) =>
        if strings_Contains (Target a) ".consul" then
          let query := EvLookupIPAddr dial query_deadline (Target a) in
          match net_LookupIPAddr (network w) dial query_deadline (Target a) with
          | (_, Some _) =>
              (pre ++ [query],
               Done ("", "",
                     Some ("failed to resolve IP address for " +:+ Target a)))
          | ([], None) =>
              (pre ++ [query],
               Panic "runtime error: index out of range [0] with length 0")
          | (ip :: _, None) =>
              (pre ++ [query;
                       resolved (IP_String (IPAddr_IP ip)) (itoa (Port a))],
               Done (IP_String (IPAddr_IP ip), itoa (Port a), None))
          end
        else
          (pre ++ [resolved (Target a) (itoa (Port a))],
           Done (Target a, itoa (Port a), None))
    end.
Proof.
  cbv zeta. unfold resolveHostPort.
  change (500 * time_Millisecond) with query_deadline.
  pose proof (selected_server (environ w)) as Hsel. cbv zeta in Hsel.
  destruct (Split_colon (Getenv (environ w) "CONSUL_HTTP_ADDR")) as [tl Htl].
  unfold bind, os_Getenv, log_Printf, Resolver_LookupSRV,
    Resolver_LookupIPAddr, ret, fmt_Errorf, select_reads, dial_address.
  cbn [Dial_address timeout_ns context_WithTimeout].
  destruct (String.eqb (Getenv (environ w) "NET_BRIDGE_GW_IP") "") eqn:E;
    [rewrite Htl; unfold index0 at 1; unfold ret|];
    rewrite Hsel, !Sprintf_dial;
    destruct (net_LookupSRV _ _ _ _ _ _) as [[cname addrs] [e|]];
    try reflexivity;
    destruct addrs as [|a addrs]; try reflexivity;
    unfold index0, ret, panic;
    rewrite ?Sprintf_port, ?Sprintf_unresolved;
    destruct (strings_Contains (Target a) ".consul"); try reflexivity;
    destruct (net_LookupIPAddr _ _ _ _) as [[|ip ips] [e|]]; reflexivity.
Qed.

Lemma Sprintf_dsn (driver user pass host port name : string) :
  fmt_Sprintf "%s://%s:%s@%s:%s/%s?sslmode=disable"
    [AString driver; AString user; AString pass; AString host; AString port;
     AString name]
  = driver +:+ "://" +:+ user +:+ ":" +:+ pass +:+ "@" +:+ host +:+ ":"
    +:+ port +:+ "/" +:+ name +:+ "?sslmode=disable".
Proof. reflexivity. Qed.

Lemma default_when_empty (s d : string) :
  (if String.eqb s "" then d else s) = (if bool_decide (s = "") then d else s).
Proof.
  destruct (String.eqb_spec s "") as [E|E].
  - now rewrite bool_decide_eq_true_2.
  - now rewrite bool_decide_eq_false_2.
Qed.

(** The text [constructDatabaseUrl] hands to [url.Parse], for the host and
    port it ends up with. *)
Lemma dsn_assembleURL (f : ConnectionFields) (host port : string) :
  port <> "" ->
  fmt_Sprintf "%s://%s:%s@%s:%s/%s?sslmode=disable"
    [AString (if String.eqb (cf_driver f) "" then "postgres" else cf_driver f);
     AString (cf_user f); AString (cf_password f); AString host; AString port;
     AString (cf_databaseName f)]
  = assembleURL (with_endpoint f host port).
Proof.
  intros Hp. rewrite Sprintf_dsn, default_when_empty.
  unfold assembleURL, with_endpoint; cbn [cf_driver cf_user cf_password cf_host
    cf_port cf_databaseName].
  now rewrite (bool_decide_eq_false_2 (port = "")).
Qed.

(** The static path: the host name read does not end in .consul. *)
Lemma constructDatabaseUrl_static (c : cli_Context) (w : World) :
  let env := environ w in
  strings_HasSuffix (indirect env (GlobalString c "hostvar")) ".consul" = false ->
  constructDatabaseUrl c w =
    (reads_before c env ++ reads_after c env,
     Done (url_Parse (assembleURL (read_fields c env)))).
Proof.
  cbv zeta. intros Hs. unfold constructDatabaseUrl, bind.
  repeat (rewrite readVarVal_run; cbv beta iota).
  rewrite Hs. unfold ret.
  repeat (rewrite readVarVal_run; cbv beta iota).
  rewrite Sprintf_dsn, !default_when_empty.
  unfold reads_before, reads_after. rewrite app_nil_r, <- !app_assoc.
  reflexivity.
Qed.

(** The discovery path: the host name read ends in .consul, and what
    [resolveHostPort] returns decides the rest. *)
Lemma constructDatabaseUrl_discovery (c : cli_Context) (w : World) :
  let env := environ w in
  let f := read_fields c env in
  strings_HasSuffix (cf_host f) ".consul" = true ->
  constructDatabaseUrl c w =
    match resolveHostPort (cf_host f) w with
    | (t, Panic msg) => (reads_before c env ++ t, Panic msg)
    | (t, Done (host, port, Some e)) =>
        (reads_before c env ++ t,
         Done (None,
               fmt_Errorf "failed to resolve DNS name %q. %s"
                 [AString host; AError e]))
    | (t, Done (host, port, None)) =>
        (reads_before c env ++ t ++ reads_after c env,
         Done (url_Parse
                 (fmt_Sprintf "%s://%s:%s@%s:%s/%s?sslmode=disable"
                    [AString (if String.eqb (cf_driver f) "" then "postgres"
                              else cf_driver f);
                     AString (cf_user f); AString (cf_password f);
                     AString host; AString port;
                     AString (cf_databaseName f)])))
    end.
Proof.
  cbv zeta. cbn [read_fields cf_host cf_driver cf_user cf_password
    cf_databaseName]. intros Hs. unfold constructDatabaseUrl, bind.
  repeat (rewrite readVarVal_run; cbv beta iota).
  rewrite Hs. unfold reads_before, reads_after.
  destruct (resolveHostPort _ w) as [t [[[host port] [e|]]|msg]];
    unfold ret; repeat (rewrite readVarVal_run; cbv beta iota);
    rewrite ?app_nil_r, <- ?app_assoc; reflexivity.
Qed.

Lemma lookups_select_reads (env : gmap string string) (t : list event) :
  lookups (select_reads env ++ t) = lookups t.
Proof. unfold select_reads. destruct (String.eqb _ _); reflexivity. Qed.

Lemma resolveHostPort_port (hostname : string) (w : World) t host port :
  resolveHostPort hostname w = (t, Done (host, port, None)) -> port <> "".
Proof.
  rewrite resolveHostPort_run. cbv zeta.
  destruct (net_LookupSRV _ _ _ _ _ _) as [[cname [|a addrs]] [e|]];
    try discriminate.
  destruct (strings_Contains _ _).
  - destruct (net_LookupIPAddr _ _ _ _) as [[|ip ips] [e|]]; try discriminate.
    intros [= _ _ <-]. apply itoa_nonempty.
  - intros [= _ _ <-]. apply itoa_nonempty.
Qed.

(** ** Programs read the environment through [os.Getenv] only *)

Lemma respects_ret {A} (a : A) : respects (ret a).
Proof. intros w1 w2 _. reflexivity. Qed.

Lemma respects_panic {A} (msg : string) : respects (@panic _ A msg).
Proof. intros w1 w2 _. reflexivity. Qed.

Lemma respects_bind {A B} (m : M A) (f : A -> M B) :
  respects m -> (forall a, respects (f a)) -> respects (bind m f).
Proof.
  intros Hm Hf w1 w2 H. unfold bind. rewrite (Hm w1 w2 H).
  destruct (m w2) as [t [a|msg]]; [|reflexivity].
  now rewrite (Hf a w1 w2 H).
Qed.

Lemma respects_Getenv (key : string) : respects (os_Getenv key).
Proof. intros w1 w2 [_ H]. unfold os_Getenv. now rewrite H. Qed.

Lemma respects_Printf (format : string) (args : list fmt_arg) :
  respects (log_Printf format args).
Proof. intros w1 w2 _. reflexivity. Qed.

Lemma respects_index0 {A} (s : list A) : respects (index0 s).
Proof. destruct s; [apply respects_panic | apply respects_ret]. Qed.

Lemma respects_LookupSRV r ctx service proto name :
  respects (Resolver_LookupSRV r ctx service proto name).
Proof. intros w1 w2 [H _]. unfold Resolver_LookupSRV. now rewrite H. Qed.

Lemma respects_LookupIPAddr r ctx host :
  respects (Resolver_LookupIPAddr r ctx host).
Proof. intros w1 w2 [H _]. unfold Resolver_LookupIPAddr. now rewrite H. Qed.

Ltac respects_step :=
  first
    [ apply respects_ret | apply respects_Getenv | apply respects_Printf
    | apply respects_index0 | apply respects_LookupSRV
    | apply respects_LookupIPAddr
    | apply respects_bind; [|intros ?]
    | match goal with
      | |- respects (match ?x with _ => _ end) => destruct x
      end ].

Lemma respects_readVarVal (v : string) : respects (readVarVal v).
Proof. unfold readVarVal. repeat respects_step. Qed.

Lemma respects_resolveHostPort (hostname : string) :
  respects (resolveHostPort hostname).
Proof. unfold resolveHostPort. repeat respects_step. Qed.

Lemma respects_constructDatabaseUrl (c : cli_Context) :
  respects (constructDatabaseUrl c).
Proof.
  unfold constructDatabaseUrl.
  repeat first [apply respects_readVarVal | apply respects_resolveHostPort
               | respects_step].
Qed.

Lemma respects_getDatabaseURL (c : cli_Context) : respects (getDatabaseURL c).
Proof.
  unfold getDatabaseURL.
  repeat first [apply respects_constructDatabaseUrl | respects_step].
Qed.

(** A variable holding the empty string reads like one that is unset. *)
Lemma Getenv_delete_empty (env : gmap string string) (name key : string) :
  env !! name = Some "" -> Getenv (delete name env) key = Getenv env key.
Proof.
  intros H. unfold Getenv, syscall_Getenv.
  destruct (String.eqb key ""); [reflexivity|].
  destruct (decide (name = key)) as [<-|Hne].
  - now rewrite lookup_delete_eq, H.
  - now rewrite lookup_delete_ne.
Qed.

(** ** The indirect variable resolver *)

(** C5: [readVarVal A] returns V when A holds the name B and B holds V; it
    returns the empty string when A is unset, when A holds the empty string
    and when the variable A names is unset.  It always returns (no error, no
    panic), and all it does is read the environment twice. *)
Theorem readVarVal_double_indirection (w : World) (A : string) :
  let env := environ w in
  (forall B V, os_LookupEnv env A = Some B -> os_LookupEnv env B = Some V ->
               snd (readVarVal A w) = Done V)
  /\ (os_LookupEnv env A = None -> snd (readVarVal A w) = Done "")
  /\ (os_LookupEnv env A = Some "" -> snd (readVarVal A w) = Done "")
  /\ (forall B, os_LookupEnv env A = Some B -> os_LookupEnv env B = None ->
                snd (readVarVal A w) = Done "")
  /\ (exists V, readVarVal A w = ([EvGetenv A; EvGetenv (Getenv env A)], Done V)).
Proof.
  cbv zeta. rewrite readVarVal_run. unfold indirect. cbn [snd].
  repeat split.
  - intros B V HA HB. now rewrite HA, HB.
  - intros HA. now rewrite HA.
  - intros HA. now rewrite HA, LookupEnv_empty_key.
  - intros B HA HB. now rewrite HA, HB.
  - eexists. reflexivity.
Qed.

(** ** The override variable *)

(** C6: when the override variable (flag env) holds a non-empty value, the
    URL returned is the parse of that value, and the run reads that one
    variable and does nothing else: no indirect read, no DNS query. *)
Theorem override_url_is_parsed_directly (c : cli_Context) (w : World) :
  let value := Getenv (environ w) (GlobalString c "env") in
  value <> "" ->
  getDatabaseURL c w
  = ([EvGetenv (GlobalString c "env")], Done (url_Parse value)).
Proof.
  cbv zeta. intros Hv. unfold getDatabaseURL, bind, os_Getenv.
  destruct (String.eqb_spec (Getenv (environ w) (GlobalString c "env")) "");
    [contradiction | reflexivity].
Qed.

(** C10: when the override variable is set and holds the empty string,
    [getDatabaseURL] runs exactly as in the environment without the
    variable, and what it does after reading it is [constructDatabaseUrl]:
    the empty value is not parsed, and the URL comes from the indirection
    variables, with the discovery path when the host asks for it. *)
Theorem empty_override_is_unset (c : cli_Context) (env : gmap string string)
    (net : Network) :
  let name := GlobalString c "env" in
  let w := {| environ := env; network := net |} in
  let w' := {| environ := delete name env; network := net |} in
  env !! name = Some "" ->
  getDatabaseURL c w = getDatabaseURL c w'
  /\ getDatabaseURL c w
     = (EvGetenv name :: fst (constructDatabaseUrl c w),
        snd (constructDatabaseUrl c w))
  /\ getDatabaseURL c w'
     = (EvGetenv name :: fst (constructDatabaseUrl c w'),
        snd (constructDatabaseUrl c w')).
Proof.
  cbv zeta. intros H.
  assert (Hsame : same_reads {| environ := env; network := net |}
            {| environ := delete (GlobalString c "env") env; network := net |}).
  { split; [reflexivity|]. intros key. symmetry.
    now apply Getenv_delete_empty. }
  assert (Hv : Getenv env (GlobalString c "env") = "").
  { unfold Getenv, syscall_Getenv.
    destruct (String.eqb _ ""); [reflexivity|]. now rewrite H. }
  assert (Hrun : getDatabaseURL c {| environ := env; network := net |}
     = (EvGetenv (GlobalString c "env")
          :: fst (constructDatabaseUrl c {| environ := env; network := net |}),
        snd (constructDatabaseUrl c {| environ := env; network := net |}))).
  { unfold getDatabaseURL, bind, os_Getenv. cbn [environ]. rewrite Hv.
    cbn [String.eqb]. now destruct (constructDatabaseUrl c _). }
  split; [apply respects_getDatabaseURL, Hsame|].
  split; [exact Hrun|].
  rewrite <- (respects_getDatabaseURL c _ _ Hsame),
          <- (respects_constructDatabaseUrl c _ _ Hsame).
  exact Hrun.
Qed.

(** ** Static host names *)

(** C7: when the host name read through the host variable does not end in
    .consul, [constructDatabaseUrl] does not enter [resolveHostPort]: the
    run consists of environment reads only, with no DNS query, and the host
    of the assembled URL is the host name as read. *)
Theorem static_hostname_passes_through (c : cli_Context) (w : World) :
  let env := environ w in
  let hostname := indirect env (GlobalString c "hostvar") in
  strings_HasSuffix hostname ".consul" = false ->
  exists t,
    constructDatabaseUrl c w
    = (t, Done (url_Parse (assembleURL (read_fields c env))))
    /\ cf_host (read_fields c env) = hostname
    /\ lookups t = []
    /\ Forall (fun e => is_read e = true) t.
Proof.
  cbv zeta. intros Hs.
  exists (reads_before c (environ w) ++ reads_after c (environ w)).
  split; [now apply constructDatabaseUrl_static|].
  split; [reflexivity|]. split; [reflexivity|].
  unfold reads_before, reads_after, reads. repeat constructor.
Qed.

(** ** URL assembly *)

(** C8: the text handed to [url.Parse] is
    [<driver>://<user>:<password>@<host>:<port>/<databaseName>?sslmode=disable]
    of the resolved fields, postgres standing for an empty driver and 5432
    for an empty port: of the fields as read on the static path, and of the
    fields with the resolved host and port on the discovery path.  With
    driver and port empty the text starts with postgres:// and carries port
    5432. *)
Theorem assembled_url_format (c : cli_Context) (w : World) :
  let env := environ w in
  let f := read_fields c env in
  (strings_HasSuffix (cf_host f) ".consul" = false ->
   snd (constructDatabaseUrl c w) = Done (url_Parse (assembleURL f)))
  /\ (forall t host port,
        strings_HasSuffix (cf_host f) ".consul" = true ->
        resolveHostPort (cf_host f) w = (t, Done (host, port, None)) ->
        snd (constructDatabaseUrl c w)
        = Done (url_Parse (assembleURL (with_endpoint f host port))))
  /\ (forall g,
        assembleURL g
        = (if bool_decide (cf_driver g = "") then "postgres" else cf_driver g)
          +:+ "://" +:+ cf_user g +:+ ":" +:+ cf_password g +:+ "@"
          +:+ cf_host g +:+ ":"
          +:+ (if bool_decide (cf_port g = "") then "5432" else cf_port g)
          +:+ "/" +:+ cf_databaseName g +:+ "?sslmode=disable")
  /\ (forall user pass host name,
        assembleURL {| cf_driver := ""; cf_user := user; cf_password := pass;
                       cf_host := host; cf_port := "";
                       cf_databaseName := name |}
        = "postgres://" +:+ user +:+ ":" +:+ pass +:+ "@" +:+ host
          +:+ ":5432/" +:+ name +:+ "?sslmode=disable").
Proof.
  cbv zeta. repeat split.
  - intros Hs. now rewrite constructDatabaseUrl_static.
  - intros t host port Hs Hr.
    pose proof (constructDatabaseUrl_discovery c w) as Hd. cbv zeta in Hd.
    rewrite (Hd Hs), Hr. cbn [snd].
    rewrite dsn_assembleURL; [reflexivity|].
    exact (resolveHostPort_port _ _ _ _ _ Hr).
Qed.

(** ** The discovery path *)

(** C9: in every call of [resolveHostPort] the server is the one the
    specification selects (NET_BRIDGE_GW_IP if not empty, else the part of
    CONSUL_HTTP_ADDR before its first colon if not empty, else 127.0.0.1),
    settled by one read of NET_BRIDGE_GW_IP and at most one of
    CONSUL_HTTP_ADDR before anything else happens; every query of the call
    goes to port 53 of that server, and the call makes exactly one SRV query
    and at most two queries in all, so no other candidate is tried. *)
Theorem dns_server_selection (hostname : string) (w : World) :
  let env := environ w in
  let t := fst (resolveHostPort hostname w) in
  (exists rest,
     t = select_reads env
         ++ EvLog (fmt_Sprintf "resolving address %s using DNS server at %s"
                     [AString hostname; AString (select_dnsServer env)])
         :: rest
     /\ List.filter is_read rest = [])
  /\ Forall (fun e => server_of e = Some (select_dnsServer env +:+ ":53"))
        (lookups t)
  /\ List.filter is_srv_lookup t
     = [EvLookupSRV (select_dnsServer env +:+ ":53") query_deadline hostname]
  /\ (length (lookups t) <= 2)%nat
  /\ length (List.filter (is_getenv "NET_BRIDGE_GW_IP") (select_reads env)) = 1%nat
  /\ (length (List.filter (is_getenv "CONSUL_HTTP_ADDR") (select_reads env))
      = if String.eqb (Getenv env "NET_BRIDGE_GW_IP") "" then 1 else 0)%nat.
Proof.
  cbv zeta. rewrite resolveHostPort_run. cbv zeta.
  set (dial := dial_address (environ w)).
  destruct (net_LookupSRV _ _ _ _ _ _) as [[cname [|a addrs]] [e|]];
    [| | |destruct (strings_Contains _ _);
          [destruct (net_LookupIPAddr _ _ _ _) as [[|ip ips] [e|]]|]];
    cbn [fst]; rewrite <- ?app_assoc; cbn [app];
    (split; [eexists; split; [reflexivity|reflexivity]|]);
    rewrite !lookups_select_reads;
    unfold select_reads; destruct (String.eqb _ _);
    repeat split; repeat constructor.
Qed.

(** C2 (amended): after an SRV answer without error whose first record is
    (target T, port P): if T contains .consul anywhere (in particular if
    it ends with it), one address query for T is sent to the same server
    and, when that returns without error and with a first address, the
    result is (that address, decimal P); if T does not contain .consul, no
    address query is sent and the result is (T, decimal P).  The records
    after the first and the addresses after the first play no part. *)
Theorem resolveHostPort_first_record (w : World) (hostname cname : string)
    (a : SRV) (others : list SRV) :
  let dial := dial_address (environ w) in
  net_LookupSRV (network w) dial query_deadline "" "" hostname
  = (cname, a :: others, None) ->
  (strings_Contains (Target a) ".consul" = true ->
   forall ip ips,
     net_LookupIPAddr (network w) dial query_deadline (Target a)
     = (ip :: ips, None) ->
     snd (resolveHostPort hostname w)
     = Done (IP_String (IPAddr_IP ip), itoa (Port a), None)
     /\ lookups (fst (resolveHostPort hostname w))
        = [EvLookupSRV dial query_deadline hostname;
           EvLookupIPAddr dial query_deadline (Target a)])
  /\ (strings_Contains (Target a) ".consul" = false ->
      snd (resolveHostPort hostname w) = Done (Target a, itoa (Port a), None)
      /\ lookups (fst (resolveHostPort hostname w))
         = [EvLookupSRV dial query_deadline hostname])
  /\ (strings_HasSuffix (Target a) ".consul" = true ->
      strings_Contains (Target a) ".consul" = true).
Proof.
  cbv zeta. intros Hsrv. rewrite resolveHostPort_run. cbv zeta. rewrite Hsrv.
  split; [|split].
  - intros Hc ip ips Hip. rewrite Hc, Hip. cbn [fst snd].
    split; [reflexivity|].
    rewrite <- app_assoc. now rewrite lookups_select_reads.
  - intros Hc. rewrite Hc. cbn [fst snd].
    split; [reflexivity|].
    rewrite <- app_assoc. now rewrite lookups_select_reads.
  - apply HasSuffix_Contains.
Qed.

(** ** An SRV answer without records *)


(** ** Where the code leaves the specification *)

(** A query that returns an error ends the resolution at once: a failed SRV
    query is the only query of the call, a failed address query is the
    second and last, and the error comes with empty host and port. *)
Lemma resolveHostPort_fails_fast (w : World) (hostname : string) :
  let dial := dial_address (environ w) in
  (forall cname addrs e,
     net_LookupSRV (network w) dial query_deadline "" "" hostname
     = (cname, addrs, Some e) ->
     snd (resolveHostPort hostname w) = Done ("", "", Some e)
     /\ lookups (fst (resolveHostPort hostname w))
        = [EvLookupSRV dial query_deadline hostname])
  /\ (forall cname a others ips e,
        net_LookupSRV (network w) dial query_deadline "" "" hostname
        = (cname, a :: others, None) ->
        strings_Contains (Target a) ".consul" = true ->
        net_LookupIPAddr (network w) dial query_deadline (Target a)
        = (ips, Some e) ->
        snd (resolveHostPort hostname w)
        = Done ("", "",
                Some ("failed to resolve IP address for " +:+ Target a))
        /\ lookups (fst (resolveHostPort hostname w))
           = [EvLookupSRV dial query_deadline hostname;
              EvLookupIPAddr dial query_deadline (Target a)]).
Proof.
  cbv zeta. rewrite resolveHostPort_run. cbv zeta. split.
  - intros cname addrs e ->. destruct addrs; cbn [fst snd];
      (split; [reflexivity | now rewrite lookups_select_reads]).
  - intros cname a others ips e -> -> ->. destruct ips; cbn [fst snd];
      (split; [reflexivity|]);
      rewrite <- app_assoc; now rewrite lookups_select_reads.
Qed.

(** When [resolveHostPort] returns an error it returns empty host and port
    with it, so the host name [constructDatabaseUrl] quotes in its message
    is the empty string, whatever name was being resolved. *)
Lemma resolveHostPort_error_host (w : World) (hostname : string) t host port e :
  resolveHostPort hostname w = (t, Done (host, port, Some e)) ->
  host = "" /\ port = "".
Proof.
  rewrite resolveHostPort_run. cbv zeta.
  destruct (net_LookupSRV _ _ _ _ _ _) as [[cname [|a addrs]] [e'|]];
    try discriminate; try (intros [= _ <- <- _]; now split).
  destruct (strings_Contains _ _); [|discriminate].
  destruct (net_LookupIPAddr _ _ _ _) as [[|ip ips] [e'|]];
    try discriminate; intros [= _ <- <- _]; now split.
Qed.

Lemma constructDatabaseUrl_error_message (c : cli_Context) (w : World)
    t host port e :
  let hostname := indirect (environ w) (GlobalString c "hostvar") in
  strings_HasSuffix hostname ".consul" = true ->
  resolveHostPort hostname w = (t, Done (host, port, Some e)) ->
  snd (constructDatabaseUrl c w)
  = Done (None,
          Some ("failed to resolve DNS name " +:+ strconv_Quote ""
                +:+ ". " +:+ e)).
Proof.
  cbv zeta. intros Hs Hr.
  pose proof (constructDatabaseUrl_discovery c w) as Hd. cbv zeta in Hd.
  rewrite (Hd Hs). cbn [read_fields cf_host]. rewrite Hr. cbn [snd].
  destruct (resolveHostPort_error_host _ _ _ _ _ _ Hr) as [-> _].
  unfold fmt_Errorf. cbn. now rewrite append_empty_r.
Qed.

(** No flag of [NewApp] is called portvar (the port flag is dbportvar), so
    the name [constructDatabaseUrl] reads the port through is empty on
    every command line, and so is the port it reads. *)
Lemma portvar_is_not_declared (given : list (string * string)) :
  GlobalString (cli_NewContext NewApp_Flags given) "portvar" = "".
Proof. reflexivity. Qed.

Lemma port_read_is_empty (given : list (string * string))
    (env : gmap string string) :
  cf_port (read_fields (cli_NewContext NewApp_Flags given) env) = "".
Proof.
  cbn [read_fields cf_port]. rewrite portvar_is_not_declared.
  unfold indirect. now rewrite LookupEnv_empty_key.
Qed.

(** Nor can the command line set it: [app.Run] refuses a flag portvar. *)
Lemma portvar_is_refused (v : string) :
  flags_declared NewApp_Flags [("portvar", v)] = false
  /\ flags_declared NewApp_Flags [("dbportvar", v)] = true.
Proof. split; reflexivity. Qed.

End Properties.

(** ** More on strings *)

#[local] Arguments String.append !_ _ / : simpl nomatch.

Lemma length_append (a b : string) :
  String.length (a +:+ b) = (String.length a + String.length b)%nat.
Proof. induction a as [|c a IH]; simpl; [reflexivity | now rewrite IH]. Qed.

Lemma string_drop_0 (s : string) : string_drop 0 s = s.
Proof. destruct s; reflexivity. Qed.

Lemma string_drop_append (a b : string) (n : nat) :
  string_drop (String.length a + n) (a +:+ b) = string_drop n b.
Proof. induction a as [|c a IH]; simpl; [reflexivity | exact IH]. Qed.

Lemma HasSuffix_append (h t x : string) :
  (String.length x <= String.length t)%nat ->
  strings_HasSuffix (h +:+ t) x = strings_HasSuffix t x.
Proof.
  intros Hl. unfold strings_HasSuffix. rewrite length_append.
  replace (String.length h + String.length t - String.length x)%nat
    with (String.length h + (String.length t - String.length x))%nat by lia.
  rewrite string_drop_append.
  destruct (Nat.leb_spec (String.length x) (String.length t)); [|lia].
  destruct (Nat.leb_spec (String.length x)
              (String.length h + String.length t)); [reflexivity | lia].
Qed.

Lemma HasSuffix_append_self (h x : string) :
  strings_HasSuffix (h +:+ x) x = true.
Proof.
  rewrite HasSuffix_append by lia. unfold strings_HasSuffix.
  rewrite Nat.sub_diag, string_drop_0, String.eqb_refl.
  destruct (Nat.leb_spec (String.length x) (String.length x)) as [_|Hn];
    [reflexivity | lia].
Qed.

Lemma string_drop_split (n : nat) :
  forall s, exists h, s = h +:+ string_drop n s.
Proof.
  induction n as [|n IH]; intros s.
  - exists "". now rewrite string_drop_0.
  - destruct s as [|c s]; [now exists ""|].
    destruct (IH s) as [h Hh]. exists (String c h).
    cbn [string_drop]. simpl. now rewrite <- Hh.
Qed.

(** [HasSuffix] holds of the texts that end with the suffix, and of no
    other. *)
Lemma HasSuffix_iff (s x : string) :
  strings_HasSuffix s x = true <-> exists h, s = h +:+ x.
Proof.
  split.
  - unfold strings_HasSuffix. intros H.
    apply andb_true_iff in H as [_ H]. apply String.eqb_eq in H.
    destruct (string_drop_split (String.length s - String.length x) s)
      as [h Hh].
    exists h. now rewrite H in Hh.
  - intros [h ->]. apply HasSuffix_append_self.
Qed.

Lemma index_from_shift (x : string) :
  forall (s : string) (i : Z),
    index_from i s x
    = if 0 <=? index_from 0 s x then i + index_from 0 s x else -1.
Proof.
  induction s as [|c s IH]; intros i.
  - rewrite !index_from_eq. destruct (strings_HasPrefix "" x); simpl;
      [f_equal; lia | reflexivity].
  - rewrite (index_from_eq i), (index_from_eq 0).
    destruct (strings_HasPrefix (String c s) x).
    + simpl. lia.
    + rewrite (IH (i + 1)), (IH (0 + 1)).
      destruct (Z.leb_spec 0 (index_from 0 s x)) as [Hk|Hk].
      * destruct (Z.leb_spec 0 (0 + 1 + index_from 0 s x)) as [_|Hn]; lia.
      * reflexivity.
Qed.

Lemma Contains_colon_cons (c : ascii) (s : string) :
  strings_Contains (String c s) ":" = false ->
  Ascii.eqb c ":" = false /\ strings_Contains s ":" = false.
Proof.
  unfold strings_Contains, strings_Index. rewrite index_from_eq.
  cbn [strings_HasPrefix].
  destruct (Ascii.eqb c ":").
  - destruct s; discriminate.
  - rewrite index_from_shift.
    destruct (Z.leb_spec 0 (index_from 0 s ":")) as [Hk|Hk]; intros Hn.
    + apply Z.leb_gt in Hn. lia.
    + split; reflexivity.
Qed.

(** The host segment of a text that has no colon before [tail]. *)
Lemma before_colon_append (h tail : string) :
  strings_Contains h ":" = false ->
  before_colon (h +:+ tail) = h +:+ before_colon tail.
Proof.
  induction h as [|c h IH]; intros H; [reflexivity|].
  apply Contains_colon_cons in H as [Hc Hh].
  simpl. rewrite Hc. now rewrite IH.
Qed.

Lemma itoa_round_trip (n : Z) : parse_decimal (itoa n) = Some n.
Proof.
  unfold parse_decimal, itoa.
  rewrite NilZero.isi.
  - change (Some (Z.of_int (Z.to_int n)) = Some n).
    now rewrite DecimalZ.of_to.
  - intros H.
    assert (n = 0) by (rewrite <- (DecimalZ.of_to n), H; reflexivity).
    subst n. vm_compute in H. discriminate.
  - intros H.
    assert (n = 0) by (rewrite <- (DecimalZ.of_to n), H; reflexivity).
    subst n. vm_compute in H. discriminate.
Qed.

(** ** More on the discovery path *)

Section Discovery.
Context `{Ext : Externals}.
Local Open Scope go_scope.


Lemma srv_query_of_run (hostname : string) (w : World) :
  List.filter is_srv_lookup (fst (resolveHostPort hostname w))
  = [EvLookupSRV (dial_address (environ w)) query_deadline hostname].
Proof.
  rewrite resolveHostPort_run. cbv zeta.
  destruct (net_LookupSRV _ _ _ _ _ _) as [[cname [|a addrs]] [e|]];
    [| | |destruct (strings_Contains _ _);
          [destruct (net_LookupIPAddr _ _ _ _) as [[|ip ips] [e|]]|]];
    cbn [fst]; rewrite <- ?app_assoc; cbn [app];
    unfold select_reads; destruct (String.eqb _ _); reflexivity.
Qed.

(** X1: the queries of a call are the SRV query alone, or the SRV query
    followed by one address query for the target of the first record; the
    second is sent only after the first returned without error with a first
    record whose target contains .consul; both are sent to the selected
    server under a context made with a timeout of 500 ms. *)
Theorem resolveHostPort_query_sequence (hostname : string) (w : World) :
  let dial := dial_address (environ w) in
  let budget := 500 * time_Millisecond in
  let queries := lookups (fst (resolveHostPort hostname w)) in
  queries = [EvLookupSRV dial budget hostname]
  \/ (exists cname a others,
        net_LookupSRV (network w) dial budget "" "" hostname
        = (cname, a :: others, None)
        /\ strings_Contains (Target a) ".consul" = true
        /\ queries = [EvLookupSRV dial budget hostname;
                      EvLookupIPAddr dial budget (Target a)]).
Proof.
  cbv zeta. change (500 * time_Millisecond) with query_deadline.
  rewrite resolveHostPort_run. cbv zeta.
  destruct (net_LookupSRV _ _ _ _ _ _) as [[cname [|a addrs]] [e|]] eqn:Hsrv;
    cbn [fst]; rewrite ?lookups_select_reads; try (now left).
  destruct (strings_Contains _ _) eqn:Hc.
  - right. exists cname, a, addrs. split; [reflexivity|]. split; [exact Hc|].
    destruct (net_LookupIPAddr _ _ _ _) as [[|ip ips] [e|]]; cbn [fst];
      rewrite <- app_assoc; now rewrite lookups_select_reads.
  - left. cbn [fst]. rewrite <- app_assoc. now rewrite lookups_select_reads.
Qed.

(** X2: what [resolveHostPort] returns is never half an endpoint: with an
    error, host and port are both empty; without one, the port is the
    decimal text of the port of the first SRV record (it reads back as that
    number), and the host is that record's target unless the target
    contains .consul. *)
Theorem resolveHostPort_endpoint (hostname : string) (w : World)
    t host port err :
  resolveHostPort hostname w = (t, Done (host, port, err)) ->
  match err with
  | Some _ => host = "" /\ port = ""
  | None =>
      exists cname a others,
        net_LookupSRV (network w) (dial_address (environ w)) query_deadline
          "" "" hostname = (cname, a :: others, None)
        /\ parse_decimal port = Some (Port a)
        /\ (strings_Contains (Target a) ".consul" = false -> host = Target a)
  end.
Proof.
  rewrite resolveHostPort_run. cbv zeta.
  destruct (net_LookupSRV _ _ _ _ _ _) as [[cname [|a addrs]] [e|]];
    try discriminate;
    try (intros H; injection H as _ <- <- <-; now split).
  destruct (strings_Contains _ _) eqn:Hc.
  - destruct (net_LookupIPAddr _ _ _ _) as [[|ip ips] [e|]];
      try discriminate; intros H; injection H as _ <- <- <-;
      try (now split).
    exists cname, a, addrs. split; [reflexivity|].
    split; [apply itoa_round_trip | intros Hf; congruence].
  - intros H; injection H as _ <- <- <-. exists cname, a, addrs.
    split; [reflexivity|]. split; [apply itoa_round_trip | reflexivity].
Qed.


(** X4: a call depends on the environment through NET_BRIDGE_GW_IP alone
    when that holds a value, and through NET_BRIDGE_GW_IP and
    CONSUL_HTTP_ADDR otherwise: in two worlds with the same network that
    agree on them, the call is the same, events and result. *)
Theorem resolveHostPort_reads_two_variables (hostname : string)
    (w1 w2 : World) :
  network w1 = network w2 ->
  Getenv (environ w1) "NET_BRIDGE_GW_IP"
  = Getenv (environ w2) "NET_BRIDGE_GW_IP" ->
  (Getenv (environ w1) "NET_BRIDGE_GW_IP" = "" ->
   Getenv (environ w1) "CONSUL_HTTP_ADDR"
   = Getenv (environ w2) "CONSUL_HTTP_ADDR") ->
  resolveHostPort hostname w1 = resolveHostPort hostname w2.
Proof.
  intros Hn Hgw Hc.
  assert (Hs : select_dnsServer (environ w1) = select_dnsServer (environ w2)).
  { unfold select_dnsServer. rewrite <- Hgw.
    destruct (decide (Getenv (environ w1) "NET_BRIDGE_GW_IP" = "")) as [E|E].
    - rewrite (bool_decide_eq_false_2 _ (fun H => H E)). now rewrite <- (Hc E).
    - now rewrite (bool_decide_eq_true_2 _ E). }
  assert (Hr : select_reads (environ w1) = select_reads (environ w2)).
  { unfold select_reads. now rewrite <- Hgw. }
  rewrite !resolveHostPort_run. cbv zeta. unfold dial_address.
  now rewrite Hn, Hs, Hr.
Qed.

(** X5: with NET_BRIDGE_GW_IP empty or unset, the server taken from
    CONSUL_HTTP_ADDR is the text before its first colon: a value [h:rest]
    or a value [h] without colon sends the SRV query to [h:53], whatever
    [rest] is, and to 127.0.0.1:53 when [h] is empty. *)
Theorem consul_address_host_segment (hostname : string) (w : World)
    (h tail : string) :
  Getenv (environ w) "NET_BRIDGE_GW_IP" = "" ->
  Getenv (environ w) "CONSUL_HTTP_ADDR" = h +:+ tail ->
  strings_Contains h ":" = false ->
  (tail = "" \/ exists rest, tail = ":" +:+ rest) ->
  List.filter is_srv_lookup (fst (resolveHostPort hostname w))
  = [EvLookupSRV ((if String.eqb h "" then "127.0.0.1" else h) +:+ ":53")
       (500 * time_Millisecond) hostname].
Proof.
  intros Hgw Hc Hh Ht. rewrite srv_query_of_run.
  change (500 * time_Millisecond) with query_deadline.
  unfold dial_address, select_dnsServer. rewrite Hgw, Hc.
  rewrite (bool_decide_eq_false_2 ("" <> "")) by (intros H; now apply H).
  rewrite before_colon_append by exact Hh.
  assert (Hb : before_colon tail = "").
  { destruct Ht as [->|[rest ->]]; reflexivity. }
  rewrite Hb, append_empty_r.
  destruct (String.eqb_spec h "") as [E|E].
  - now rewrite (bool_decide_eq_false_2 _ (fun H => H E)).
  - now rewrite (bool_decide_eq_true_2 _ E).
Qed.

End Discovery.

(** ** More on URL construction *)

Section Construction.
Context `{Ext : Externals}.
Local Open Scope go_scope.

Lemma lookups_app (t u : list event) : lookups (t ++ u) = lookups t ++ lookups u.
Proof. apply List.filter_app. Qed.

Lemma lookups_reads_after (c : cli_Context) (env : gmap string string) :
  lookups (reads_after c env) = [].
Proof. reflexivity. Qed.

Lemma reads_of_run (hostname : string) (w : World) :
  List.filter is_read (fst (resolveHostPort hostname w))
  = select_reads (environ w).
Proof.
  rewrite resolveHostPort_run. cbv zeta.
  destruct (net_LookupSRV _ _ _ _ _ _) as [[cname [|a addrs]] [e|]];
    [| | |destruct (strings_Contains _ _);
          [destruct (net_LookupIPAddr _ _ _ _) as [[|ip ips] [e|]]|]];
    cbn [fst]; rewrite <- ?app_assoc; cbn [app];
    unfold select_reads; destruct (String.eqb _ _); reflexivity.
Qed.

(** The events of [constructDatabaseUrl] on the discovery path. *)
Lemma constructDatabaseUrl_discovery_events (c : cli_Context) (w : World) :
  let env := environ w in
  let hostname := indirect env (GlobalString c "hostvar") in
  strings_HasSuffix hostname ".consul" = true ->
  exists rest,
    fst (constructDatabaseUrl c w)
    = reads_before c env ++ fst (resolveHostPort hostname w) ++ rest
    /\ (rest = [] \/ rest = reads_after c env).
Proof.
  cbv zeta. intros Hs.
  pose proof (constructDatabaseUrl_discovery c w) as Hd. cbv zeta in Hd.
  rewrite (Hd Hs). cbn [read_fields cf_host].
  destruct (resolveHostPort _ w) as [t [[[host port] [e|]]|msg]]; cbn [fst].
  - exists []. rewrite app_nil_r. now split; [|left].
  - exists (reads_after c (environ w)). now split; [|right].
  - exists []. rewrite app_nil_r. now split; [|left].
Qed.

(** X6: [constructDatabaseUrl] goes to the network exactly for the host
    names of the form [h.consul], the text compared byte for byte; for
    those it sends one SRV query, for the host name as read, to the
    selected server. *)
Theorem discovery_iff_consul_suffix (c : cli_Context) (w : World) :
  let env := environ w in
  let hostname := indirect env (GlobalString c "hostvar") in
  let t := fst (constructDatabaseUrl c w) in
  ((exists h, hostname = h +:+ ".consul") <-> lookups t <> [])
  /\ ((exists h, hostname = h +:+ ".consul") ->
      List.filter is_srv_lookup t
      = [EvLookupSRV (dial_address env) query_deadline hostname]).
Proof.
  cbv zeta.
  set (hostname := indirect (environ w) (GlobalString c "hostvar")).
  assert (Hsrv : strings_HasSuffix hostname ".consul" = true ->
            List.filter is_srv_lookup (fst (constructDatabaseUrl c w))
            = [EvLookupSRV (dial_address (environ w)) query_deadline hostname]).
  { intros Hs.
    destruct (constructDatabaseUrl_discovery_events c w Hs) as (rest & -> & Hr).
    rewrite !List.filter_app. fold hostname. rewrite srv_query_of_run.
    destruct Hr as [->| ->]; reflexivity. }
  split; [|intros Hh; apply Hsrv, HasSuffix_iff, Hh].
  rewrite <- HasSuffix_iff.
  destruct (strings_HasSuffix hostname ".consul") eqn:Hs.
  - split; [intros _ Hl | reflexivity].
    specialize (Hsrv eq_refl).
    assert (Hin : In (EvLookupSRV (dial_address (environ w)) query_deadline
                        hostname) (lookups (fst (constructDatabaseUrl c w)))).
    { apply List.filter_In. split; [|reflexivity].
      eapply proj1. apply List.filter_In. rewrite Hsrv. now left. }
    rewrite Hl in Hin. exact Hin.
  - split; [discriminate|]. intros Hl. exfalso. apply Hl.
    pose proof (constructDatabaseUrl_static c w) as Hst. cbv zeta in Hst.
    now rewrite (Hst Hs).
Qed.

(** X7: a host name written with the closing dot of a fully qualified
    name, [h.consul.], is a static host: no query is sent and the URL is
    assembled from the fields as read, the dot included. *)
Theorem trailing_dot_host_is_static (c : cli_Context) (w : World)
    (h : string) :
  let env := environ w in
  indirect env (GlobalString c "hostvar") = h +:+ ".consul." ->
  lookups (fst (constructDatabaseUrl c w)) = []
  /\ snd (constructDatabaseUrl c w)
     = Done (url_Parse (assembleURL (read_fields c env)))
  /\ cf_host (read_fields c env) = h +:+ ".consul.".
Proof.
  cbv zeta. intros Hh.
  pose proof (constructDatabaseUrl_static c w) as Hst. cbv zeta in Hst.
  rewrite Hst.
  - split; [reflexivity|]. split; [reflexivity | exact Hh].
  - rewrite Hh. now rewrite HasSuffix_append by (cbn; lia).
Qed.

(** X8: when the host is discoverable and a DNS query returns an error (the
    SRV query, or the address query for the first target),
    [constructDatabaseUrl] returns no URL and an error, and stops there:
    the variables of user, password and database name are never read. *)
Theorem failed_discovery_reads_no_credentials (c : cli_Context) (w : World) :
  let env := environ w in
  let dial := dial_address env in
  let hostname := indirect env (GlobalString c "hostvar") in
  strings_HasSuffix hostname ".consul" = true ->
  ((exists cname addrs e,
      net_LookupSRV (network w) dial query_deadline "" "" hostname
      = (cname, addrs, Some e))
   \/ (exists cname a others ips e,
         net_LookupSRV (network w) dial query_deadline "" "" hostname
         = (cname, a :: others, None)
         /\ strings_Contains (Target a) ".consul" = true
         /\ net_LookupIPAddr (network w) dial query_deadline (Target a)
            = (ips, Some e))) ->
  (exists msg, snd (constructDatabaseUrl c w) = Done (None, Some msg))
  /\ List.filter is_read (fst (constructDatabaseUrl c w))
     = reads_before c env ++ select_reads env.
Proof.
  cbv zeta. intros Hs Hfail.
  assert (He : exists t host port e,
            resolveHostPort (indirect (environ w) (GlobalString c "hostvar")) w
            = (t, Done (host, port, Some e))).
  { destruct (resolveHostPort_fails_fast w
                (indirect (environ w) (GlobalString c "hostvar")))
      as [Hsrv Hip].
    destruct (resolveHostPort _ w) as [t r] eqn:Hr. cbn [fst snd] in *.
    destruct Hfail as [(cname & addrs & e & H)
                      |(cname & a & others & ips & e & H1 & H2 & H3)].
    - destruct (Hsrv _ _ _ H) as [-> _]. now eexists _, _, _, _.
    - destruct (Hip _ _ _ _ _ H1 H2 H3) as [-> _]. now eexists _, _, _, _. }
  destruct He as (t & host & port & e & Hr).
  pose proof (constructDatabaseUrl_discovery c w) as Hd. cbv zeta in Hd.
  rewrite (Hd Hs). cbn [read_fields cf_host]. rewrite Hr. cbn [fst snd].
  split; [now eexists|].
  rewrite List.filter_app.
  pose proof (reads_of_run
                (indirect (environ w) (GlobalString c "hostvar")) w) as Hreads.
  rewrite Hr in Hreads. cbn [fst] in Hreads. now rewrite Hreads.
Qed.

(** X9: the fields are put into the URL text as they are, so the text does
    not tell where the user ends: on static hosts, user [u:x] with password
    [p] and user [u] with password [x:p] give the same URL. *)
Theorem colon_moves_between_user_and_password (c : cli_Context)
    (w1 w2 : World) (u x p : string) :
  let f1 := read_fields c (environ w1) in
  let f2 := read_fields c (environ w2) in
  strings_HasSuffix (cf_host f1) ".consul" = false ->
  cf_host f2 = cf_host f1 ->
  cf_driver f2 = cf_driver f1 ->
  cf_port f2 = cf_port f1 ->
  cf_databaseName f2 = cf_databaseName f1 ->
  cf_user f1 = u +:+ ":" +:+ x ->
  cf_password f1 = p ->
  cf_user f2 = u ->
  cf_password f2 = x +:+ ":" +:+ p ->
  snd (constructDatabaseUrl c w1) = snd (constructDatabaseUrl c w2).
Proof.
  cbv zeta. intros Hs Hh Hd Hp Hn Hu1 Hp1 Hu2 Hp2.
  pose proof (constructDatabaseUrl_static c w1) as H1. cbv zeta in H1.
  pose proof (constructDatabaseUrl_static c w2) as H2. cbv zeta in H2.
  rewrite H1 by exact Hs.
  rewrite H2 by (change (indirect (environ w2) (GlobalString c "hostvar"))
                 with (cf_host (read_fields c (environ w2)));
                 now rewrite Hh).
  cbn [snd]. do 2 f_equal. unfold assembleURL.
  rewrite Hh, Hd, Hp, Hn, Hu1, Hp1, Hu2, Hp2.
  now rewrite !append_assoc.
Qed.

(** X10: [getDatabaseURL] never asks for the flag dbportvar, the name under
    which [NewApp] declares the port variable: two contexts that agree on
    every other flag name give the same run, events and result, in every
    world. *)
Theorem dbportvar_has_no_effect (c c' : cli_Context) (w : World) :
  (forall name, name <> "dbportvar" ->
                GlobalString c name = GlobalString c' name) ->
  getDatabaseURL c w = getDatabaseURL c' w.
Proof.
  intros H. unfold getDatabaseURL, constructDatabaseUrl.
  rewrite (H "env"), (H "portvar"), (H "dbnamevar"), (H "drivervar"),
    (H "passvar"), (H "uservar"), (H "hostvar") by discriminate.
  reflexivity.
Qed.

End Construction.

(** ** The earlier text of main.go *)

Section Versions.
Context `{Ext : Externals}.
Local Open Scope go_scope.

Lemma plain_constructDatabaseUrl_run (c : cli_Context) (w : World) :
  let env := environ w in
  Plain.constructDatabaseUrl c w
  = (reads env (GlobalString c "portvar")
     ++ reads env (GlobalString c "drivervar")
     ++ reads env (GlobalString c "uservar")
     ++ reads env (GlobalString c "passvar")
     ++ reads env (GlobalString c "hostvar")
     ++ reads env (GlobalString c "dbnamevar"),
     Done (url_Parse (assembleURL (read_fields c env)))).
Proof.
  cbv zeta. unfold Plain.constructDatabaseUrl, bind.
  repeat (rewrite readVarVal_run; cbv beta iota). unfold ret.
  rewrite Sprintf_dsn, !default_when_empty.
  rewrite ?app_nil_r, <- ?app_assoc. reflexivity.
Qed.

(** X11: the earlier [constructDatabaseUrl] never goes to the network and
    never fails before [url.Parse]: for every host name, one ending in
    .consul included, it reads the six variables and parses the URL text of
    the fields as read, with postgres and 5432 for an empty driver and
    port. *)
Theorem plain_url_format (c : cli_Context) (w : World) :
  let env := environ w in
  exists t,
    Plain.constructDatabaseUrl c w
    = (t, Done (url_Parse (assembleURL (read_fields c env))))
    /\ Forall (fun e => is_read e = true) t
    /\ length t = 12%nat.
Proof.
  cbv zeta. eexists. split; [apply plain_constructDatabaseUrl_run|].
  split; [|reflexivity]. unfold reads. repeat constructor.
Qed.

(** X12: adding service discovery changed nothing for static hosts: when
    the override variable holds a value the two texts of [getDatabaseURL]
    run alike, and when the host name read does not end in .consul they
    return the same URL and read the same variables, in another order. *)
Theorem versions_agree_on_static_hosts (c : cli_Context) (w : World) :
  let env := environ w in
  (Getenv env (GlobalString c "env") <> "" ->
   getDatabaseURL c w = Plain.getDatabaseURL c w)
  /\ (strings_HasSuffix (indirect env (GlobalString c "hostvar")) ".consul"
      = false ->
      snd (getDatabaseURL c w) = snd (Plain.getDatabaseURL c w)
      /\ fst (getDatabaseURL c w) ≡ₚ fst (Plain.getDatabaseURL c w)).
Proof.
  cbv zeta. split.
  - intros Hv. unfold getDatabaseURL, Plain.getDatabaseURL, bind, os_Getenv.
    now destruct (String.eqb_spec (Getenv (environ w) (GlobalString c "env")) "").
  - intros Hs. unfold getDatabaseURL, Plain.getDatabaseURL, bind, os_Getenv.
    destruct (String.eqb _ ""); [|split; reflexivity].
    pose proof (constructDatabaseUrl_static c w) as Hst. cbv zeta in Hst.
    rewrite (Hst Hs), plain_constructDatabaseUrl_run. cbn [fst snd].
    split; [reflexivity|].
    apply Permutation_app_head. unfold reads_before, reads_after.
    rewrite <- !app_assoc. do 2 apply Permutation_app_head.
    rewrite !app_assoc. apply Permutation_app_tail.
    rewrite <- !app_assoc.
    rewrite (app_assoc (reads _ (GlobalString c "uservar"))).
    apply Permutation_app_comm.
Qed.

End Versions.

(** ** The caller *)

Section Actions.
Context `{Ext : Externals}.
Variable DB_rest : Type.
Variable dbmate_New : option URL -> dbmate_DB DB_rest.
Local Open Scope go_scope.

(** X14: when the override variable is empty or unset, the host is
    discoverable and the SRV query returns an error, no command runs: for
    every command body, [action] returns an error after the events of
    [getDatabaseURL], the single SRV query among them, and nothing of the
    body. *)
Theorem failed_discovery_runs_no_command
    (f : dbmate_DB DB_rest -> cli_Context -> M error)
    (c : cli_Context) (w : World) (cname e : string) (addrs : list SRV) :
  let env := environ w in
  let hostname := indirect env (GlobalString c "hostvar") in
  Getenv env (GlobalString c "env") = "" ->
  strings_HasSuffix hostname ".consul" = true ->
  net_LookupSRV (network w) (dial_address env) query_deadline "" "" hostname
  = (cname, addrs, Some e) ->
  (exists msg,
     action DB_rest dbmate_New f c w
     = (fst (getDatabaseURL c w), Done (Some msg)))
  /\ lookups (fst (getDatabaseURL c w))
     = [EvLookupSRV (dial_address env) query_deadline hostname].
Proof.
  cbv zeta. intros Hv Hs Hsrv.
  destruct (proj1 (resolveHostPort_fails_fast w _) _ _ _ Hsrv) as [Hr Hl].
  assert (Hg : getDatabaseURL c w
               = (EvGetenv (GlobalString c "env")
                    :: reads_before c (environ w)
                    ++ fst (resolveHostPort
                              (indirect (environ w) (GlobalString c "hostvar")) w),
                  Done (None,
                        fmt_Errorf "failed to resolve DNS name %q. %s"
                          [AString ""; AError e]))).
  { unfold getDatabaseURL, bind, os_Getenv. rewrite Hv. cbn [String.eqb].
    pose proof (constructDatabaseUrl_discovery c w) as Hd. cbv zeta in Hd.
    rewrite (Hd Hs). cbn [read_fields cf_host].
    destruct (resolveHostPort _ w) as [t r]. cbn [fst snd] in *. subst r.
    reflexivity. }
  split.
  - eexists. unfold action, bind. rewrite Hg. unfold fmt_Errorf, ret.
    cbn [fst]. now rewrite app_nil_r.
  - rewrite Hg. cbn [fst].
    change (lookups (EvGetenv ?k :: ?t)) with (lookups t).
    now rewrite lookups_app, Hl.
Qed.

End Actions.

(** ** The properties at work on concrete runs *)

Import Fixture.

Lemma readVarVal_double_indirection_witness :
  snd (readVarVal "A" indirection_world) = Done "value"
  /\ snd (readVarVal "UNSET" indirection_world) = Done ""
  /\ snd (readVarVal "E" indirection_world) = Done ""
  /\ snd (readVarVal "D" indirection_world) = Done "".
Proof.
  split; [|split; [|split]].
  - apply (proj1 (readVarVal_double_indirection indirection_world "A")
             "B" "value"); vm_compute; reflexivity.
  - apply (proj1 (proj2
             (readVarVal_double_indirection indirection_world "UNSET")));
      vm_compute; reflexivity.
  - apply (proj1 (proj2 (proj2
             (readVarVal_double_indirection indirection_world "E"))));
      vm_compute; reflexivity.
  - apply (proj1 (proj2 (proj2 (proj2
             (readVarVal_double_indirection indirection_world "D"))))
             "MISSING"); vm_compute; reflexivity.
Defined.

Lemma override_url_is_parsed_directly_witness :
  getDatabaseURL ctx0 override_world
  = ([EvGetenv "DATABASE_URL"],
     Done (Some "mysql://root@127.0.0.1:3306/app", None)).
Proof.
  apply (override_url_is_parsed_directly ctx0 override_world).
  vm_compute. discriminate.
Defined.

Lemma empty_override_is_unset_witness :
  getDatabaseURL ctx0 empty_override_world = getDatabaseURL ctx0 static_world.
Proof.
  assert (E : delete "DATABASE_URL" (environ empty_override_world) = static_env).
  { apply delete_insert_id. vm_compute. reflexivity. }
  unfold static_world. rewrite <- E.
  apply (empty_override_is_unset ctx0 (environ empty_override_world) no_network).
  vm_compute. reflexivity.
Defined.

Lemma static_hostname_passes_through_witness :
  exists t,
    constructDatabaseUrl ctx0 static_world
    = (t, Done (Some "postgres://app:@db.example.com:5432/orders?sslmode=disable",
                None))
    /\ lookups t = [].
Proof.
  destruct (static_hostname_passes_through ctx0 static_world) as (t & Ht & _ & Hl & _).
  - vm_compute. reflexivity.
  - exists t. split; [|exact Hl]. rewrite Ht. vm_compute. reflexivity.
Defined.

Lemma assembled_url_format_witness :
  snd (constructDatabaseUrl ctx0 static_world)
  = Done (Some "postgres://app:@db.example.com:5432/orders?sslmode=disable",
          None)
  /\ snd (constructDatabaseUrl ctx0 consul_world)
     = Done (Some "postgres://:@192.0.2.5:5433/?sslmode=disable", None).
Proof.
  split.
  - etransitivity.
    + apply (proj1 (assembled_url_format ctx0 static_world)).
      vm_compute. reflexivity.
    + vm_compute. reflexivity.
  - etransitivity.
    + apply (proj1 (proj2 (assembled_url_format ctx0 consul_world))
               (fst (resolveHostPort "db.service.consul" consul_world))
               "192.0.2.5" "5433"); vm_compute; reflexivity.
    + vm_compute. reflexivity.
Defined.

Lemma resolveHostPort_first_record_witness :
  snd (resolveHostPort "db.service.consul" consul_world)
  = Done ("192.0.2.5", "5433", None)
  /\ snd (resolveHostPort "db.service.consul" direct_world)
     = Done ("pg1.example.com", "6432", None).
Proof.
  split.
  - apply (proj1 (resolveHostPort_first_record consul_world
                    "db.service.consul" "" node_record [] eq_refl)
             eq_refl node_address [] eq_refl).
  - apply (proj1 (proj2 (resolveHostPort_first_record direct_world
                    "db.service.consul" "" pg1_record [pg2_record] eq_refl))
             eq_refl).
Defined.

(** C2, as stated, fails where the SRV target is a fully qualified name: it
    does not end with .consul, yet an address query is sent for it and the
    result carries the address, not the target. *)
Lemma fqdn_target_is_looked_up :
  net_LookupSRV (network fqdn_world) (dial_address (environ fqdn_world))
    query_deadline "" "" "db.service.consul" = ("", [fqdn_record], None)
  /\ strings_HasSuffix (Target fqdn_record) ".consul" = false
  /\ ~ (snd (resolveHostPort "db.service.consul" fqdn_world)
        = Done (Target fqdn_record, itoa (Port fqdn_record), None)
        /\ lookups (fst (resolveHostPort "db.service.consul" fqdn_world))
           = [EvLookupSRV "127.0.0.1:53" query_deadline "db.service.consul"])
  /\ snd (resolveHostPort "db.service.consul" fqdn_world)
     = Done ("192.0.2.5", "5433", None)
  /\ lookups (fst (resolveHostPort "db.service.consul" fqdn_world))
     = [EvLookupSRV "127.0.0.1:53" query_deadline "db.service.consul";
        EvLookupIPAddr "127.0.0.1:53" query_deadline "10-0-0-5.node.consul."].
Proof.
  split; [vm_compute; reflexivity|].
  split; [vm_compute; reflexivity|].
  split; [intros [H _]; vm_compute in H; discriminate|].
  split; vm_compute; reflexivity.
Qed.


(** C3: the host variable leads to db.service.consul, the SRV query
    succeeds and the address query for its target fails with a timeout; the
    run returns no URL and one error, whose message quotes the empty string
    where the host name was meant and contains neither the host name nor
    the text of the DNS error. *)
Theorem address_failure_message :
  let msg := "failed to resolve DNS name " +:+ strconv_Quote ""
             +:+ ". failed to resolve IP address for 10-0-0-5.node.consul." in
  net_LookupIPAddr (network address_failure_world) "127.0.0.1:53"
    query_deadline "10-0-0-5.node.consul."
  = ([], Some "lookup 10-0-0-5.node.consul.: i/o timeout")
  /\ snd (getDatabaseURL ctx0 address_failure_world) = Done (None, Some msg)
  /\ lookups (fst (getDatabaseURL ctx0 address_failure_world))
     = [EvLookupSRV "127.0.0.1:53" query_deadline "db.service.consul";
        EvLookupIPAddr "127.0.0.1:53" query_deadline "10-0-0-5.node.consul."]
  /\ strings_Contains msg "db.service.consul" = false
  /\ strings_Contains msg "i/o timeout" = false.
Proof. cbv zeta. repeat split; vm_compute; reflexivity. Qed.

(** C4: on the command line that sets no flag, the chain from
    DATABASE_PORT yields 6543 and the host is static, yet the URL carries
    port 5432: the port is read through a flag name, portvar, that
    [NewApp] does not declare. *)
Theorem configured_port_is_ignored :
  GlobalString ctx0 "dbportvar" = "DATABASE_PORT"
  /\ GlobalString ctx0 "portvar" = ""
  /\ indirect (environ static_world) "DATABASE_PORT" = "6543"
  /\ strings_HasSuffix (indirect (environ static_world) "DATABASE_HOST")
       ".consul" = false
  /\ snd (getDatabaseURL ctx0 static_world)
     = Done (Some "postgres://app:@db.example.com:5432/orders?sslmode=disable",
             None).
Proof. repeat split; vm_compute; reflexivity. Qed.

(** ** The further properties on concrete runs *)

Lemma resolveHostPort_endpoint_witness :
  exists cname a others,
    net_LookupSRV (network consul_world) (dial_address (environ consul_world))
      query_deadline "" "" "db.service.consul" = (cname, a :: others, None)
    /\ parse_decimal "5433" = Some (Port a)
    /\ (strings_Contains (Target a) ".consul" = false
        -> "192.0.2.5" = Target a).
Proof.
  apply (resolveHostPort_endpoint "db.service.consul" consul_world
           (fst (resolveHostPort "db.service.consul" consul_world))
           "192.0.2.5" "5433" None).
  vm_compute. reflexivity.
Defined.

Lemma resolveHostPort_reads_two_variables_witness :
  resolveHostPort "db.service.consul" busy_world
  = resolveHostPort "db.service.consul" consul_world.
Proof.
  apply (resolveHostPort_reads_two_variables "db.service.consul"
           busy_world consul_world).
  - reflexivity.
  - vm_compute. reflexivity.
  - intros _. vm_compute. reflexivity.
Defined.

Lemma consul_address_host_segment_witness :
  List.filter is_srv_lookup
    (fst (resolveHostPort "db.service.consul" url_form_world))
  = [EvLookupSRV "http:53" 500000000 "db.service.consul"].
Proof.
  apply (consul_address_host_segment "db.service.consul" url_form_world
           "http" "://127.0.0.1:8500").
  - vm_compute. reflexivity.
  - vm_compute. reflexivity.
  - vm_compute. reflexivity.
  - right. exists "//127.0.0.1:8500". reflexivity.
Defined.

Lemma discovery_iff_consul_suffix_witness :
  List.filter is_srv_lookup (fst (constructDatabaseUrl ctx0 consul_world))
  = [EvLookupSRV "127.0.0.1:53" 500000000 "db.service.consul"].
Proof.
  apply (proj2 (discovery_iff_consul_suffix ctx0 consul_world)).
  exists "db.service". vm_compute. reflexivity.
Defined.

Lemma trailing_dot_host_is_static_witness :
  lookups (fst (constructDatabaseUrl ctx0 trailing_dot_world)) = []
  /\ snd (constructDatabaseUrl ctx0 trailing_dot_world)
     = Done (Some "postgres://:@db.service.consul.:5432/?sslmode=disable",
             None).
Proof.
  destruct (trailing_dot_host_is_static ctx0 trailing_dot_world "db.service")
    as (Hl & Hr & _).
  - vm_compute. reflexivity.
  - split; [exact Hl|]. rewrite Hr. vm_compute. reflexivity.
Defined.

Lemma failed_discovery_reads_no_credentials_witness :
  (exists msg,
     snd (constructDatabaseUrl ctx0 unreachable_world) = Done (None, Some msg))
  /\ List.filter is_read (fst (constructDatabaseUrl ctx0 unreachable_world))
     = reads_before ctx0 (environ unreachable_world)
       ++ select_reads (environ unreachable_world).
Proof.
  apply (failed_discovery_reads_no_credentials ctx0 unreachable_world).
  - vm_compute. reflexivity.
  - left. exists "", [], "no such host". reflexivity.
Defined.

Lemma colon_moves_between_user_and_password_witness :
  snd (constructDatabaseUrl ctx0 colon_in_user_world)
  = snd (constructDatabaseUrl ctx0 colon_in_password_world).
Proof.
  apply (colon_moves_between_user_and_password ctx0 colon_in_user_world
           colon_in_password_world "app" "x" "secret");
    vm_compute; reflexivity.
Defined.

Lemma versions_agree_on_static_hosts_witness :
  getDatabaseURL ctx0 override_world = Plain.getDatabaseURL ctx0 override_world
  /\ snd (getDatabaseURL ctx0 static_world)
     = snd (Plain.getDatabaseURL ctx0 static_world).
Proof.
  split.
  - apply (proj1 (versions_agree_on_static_hosts ctx0 override_world)).
    vm_compute. discriminate.
  - apply (proj2 (versions_agree_on_static_hosts ctx0 static_world)).
    vm_compute. reflexivity.
Defined.

Lemma failed_discovery_runs_no_command_witness :
  exists msg,
    action (option URL) new_db migrate_body ctx0 unreachable_world
    = (fst (getDatabaseURL ctx0 unreachable_world), Done (Some msg)).
Proof.
  apply (failed_discovery_runs_no_command (option URL) new_db migrate_body
           ctx0 unreachable_world "" "no such host" []);
    vm_compute; reflexivity.
Defined.

Lemma dbportvar_has_no_effect_witness :
  GlobalString ctx_port "dbportvar" = "APP_DB_PORT"
  /\ getDatabaseURL ctx0 static_world = getDatabaseURL ctx_port static_world.
Proof.
  split; [reflexivity|].
  apply (dbportvar_has_no_effect ctx0 ctx_port static_world).
  intros name Hne. unfold GlobalString.
  let l := eval vm_compute in (globalFlags ctx0) in
  change (globalFlags ctx0) with l.
  let l := eval vm_compute in (globalFlags ctx_port) in
  change (globalFlags ctx_port) with l.
  cbn [assoc].
  repeat match goal with
         | |- context [String.eqb name ?k] =>
             destruct (String.eqb_spec name k) as [?|?];
             [try reflexivity; exfalso; apply Hne; assumption|]
         end.
  reflexivity.
Defined.
